(** * swach: the session page and the landfill map

    A shallow embedding of the two React components of the front end:

    - [Map.tsx]  ([MapComponent]): creates the Mapbox map once per mount and,
      when the map has loaded, adds one marker per landfill, a marker for the
      state centre, looks for the nearest landfill by great-circle distance
      and draws the line to it with a popup at the midpoint;
    - the page ([Home]): the sign-in / inform / input / data workflow held in
      React state, its event handlers and what it renders.

    JavaScript numbers are IEEE 754 doubles: they are modelled by Rocq's
    primitive floats, the comparison [<] by [PrimFloat.ltb].  Asynchronous
    handlers are cut at each [await] into the synchronous pieces that run
    before and after it. *)

From Stdlib Require Import Bool List String ZArith Lia.
From Stdlib Require Import Permutation.
From Stdlib Require Import Floats.
Import ListNotations.

Set Warnings "-inexact-float".

Open Scope string_scope.

(** ** JavaScript numbers *)

Module JsNumber.

(** Truthiness of a number: every number but [0], [-0] and [NaN]. *)
Definition truthy (x : float) : bool :=
  negb (PrimFloat.eqb x 0%float) && negb (PrimFloat.is_nan x).

(** Truthiness of a [number | null]. *)
Definition truthy_opt (x : option float) : bool :=
  match x with
  | Some v => truthy v
  | None => false
  end.

End JsNumber.

(** ** Map.tsx *)

Module MapTsx.

(** A GeoJSON position, longitude first: what [turf.point] and
    [setLngLat] receive. *)
Definition LngLat : Type := (float * float)%type.

(** [landfills: Array<{ lat: number; lon: number; name: string }>] *)
Record Landfill : Type := mkLandfill {
  lat : float;
  lon : float;
  name : string
}.

(** [stateCoordinates: { stateName: string, lat: number; lon: number }];
    its [lat] and [lon] are named [state_lat] and [state_lon] here. *)
Record StateCoordinates : Type := mkStateCoordinates {
  stateName : string;
  state_lat : float;
  state_lon : float
}.

Record MapComponentProps : Type := mkProps {
  stateCoordinates : StateCoordinates;
  landfills : list Landfill
}.

Definition landfillPoint (l : Landfill) : LngLat := (lon l, lat l).
Definition statePoint (s : StateCoordinates) : LngLat := (state_lon s, state_lat s).

(** A latitude and a longitude the libraries take without complaint:
    numbers, the latitude in [-90, 90] and the longitude in [-180, 180].
    On others [turf.point] ("coordinates must contain numbers") and
    Mapbox's [setLngLat] throw. *)
Definition valid_coordinates (la lo : float) : bool :=
  PrimFloat.leb (-90)%float la && PrimFloat.leb la 90%float
  && PrimFloat.leb (-180)%float lo && PrimFloat.leb lo 180%float.

Definition valid_props (p : MapComponentProps) : bool :=
  valid_coordinates (state_lat (stateCoordinates p)) (state_lon (stateCoordinates p))
  && forallb (fun l => valid_coordinates (lat l) (lon l)) (landfills p).

(** The two variables of the search: [shortestDistance] and
    [nearestLandfill]; the latter is [undefined] when [landfills[0]] is
    read from an empty array. *)
Record Nearest : Type := mkNearest {
  shortestDistance : float;
  nearestLandfill : option Landfill
}.

(** *** What the component asks of Mapbox

    The calls made on the map object, in the order they are made. *)

(** The HTML of a popup: [H3 text] is [`<h3>${text}</h3>`], and
    [H3ShortestDistance d] is
    [`<h3>Shortest Distance: ${d.toFixed(2)} km</h3>`]. *)
Inductive Html : Type :=
| H3 (text : string)
| H3ShortestDistance (d : float).

(** The [layout] and [paint] of the line layer. *)
Record LinePaint : Type := mkLinePaint {
  line_join : string;
  line_cap : string;
  line_color : string;
  line_width : float;
  line_dasharray : list float
}.

(** [addControl(new NavigationControl(), position)],
    [new Marker({ color }).setLngLat(..).setPopup(new Popup().setHTML(..)).addTo(map)],
    [addSource(id, { type: 'geojson', data: <LineString of coordinates> })],
    [addLayer({ id, type: 'line', source, layout, paint })] and
    [new Popup().setLngLat(..).setHTML(..).addTo(map)]. *)
Inductive Instruction : Type :=
| AddControl (position : string)
| AddMarker (color : option string) (lngLat : LngLat) (popup : Html)
| AddSource (id : string) (coordinates : list LngLat)
| AddLayer (id source : string) (paint : LinePaint)
| AddPopup (lngLat : LngLat) (html : Html).

(** A JavaScript exception, by the name of its class. *)
Record JsError : Type := mkJsError {
  error_name : string;
  error_message : string
}.

(** Reading [.lon] of [undefined]. *)
Definition TypeError_lon : JsError :=
  mkJsError "TypeError" "Cannot read properties of undefined (reading 'lon')".

(** The load handler runs its calls one after the other on the map: a
    computation takes the calls made so far and gives them back
    extended, with a value or the exception that stopped it. *)
Definition Handler (A : Type) : Type :=
  list Instruction -> list Instruction * (A + JsError).

Definition ret {A : Type} (a : A) : Handler A := fun done => (done, inl a).

Definition bind {A B : Type} (m : Handler A) (k : A -> Handler B) : Handler B :=
  fun done =>
    match m done with
    | (done', inl a) => k a done'
    | (done', inr e) => (done', inr e)
    end.

Definition emit (i : Instruction) : Handler unit :=
  fun done => ((done ++ [i])%list, inl tt).

Definition throw {A : Type} (e : JsError) : Handler A :=
  fun done => (done, inr e).

Notation "m ;; k" := (bind m (fun _ => k))
  (at level 61, right associativity).
Notation "x <- m ;; k" := (bind m (fun x => k))
  (at level 61, m at next level, right associativity).

(** [array.forEach(callback)] for a callback that acts on the map. *)
Fixpoint forEach {A : Type} (f : A -> Handler unit) (l : list A) : Handler unit :=
  match l with
  | [] => ret tt
  | a :: l' => f a ;; forEach f l'
  end.

(** Property access on a value that may be [undefined]. *)
Definition deref {A : Type} (o : option A) : Handler A :=
  match o with
  | Some a => ret a
  | None => throw TypeError_lon
  end.

Definition shortest_path_paint : LinePaint :=
  mkLinePaint "round" "round" "#888" 3%float [2%float; 2%float].

(** *** The component

    [new mapboxgl.Map({ container, style, center, zoom })] and what
    became of it. *)
Record MapboxMap : Type := mkMap {
  style : string;
  center : LngLat;
  zoom : float;
  (** the props the registered ['load'] listener is closed over *)
  listener : MapComponentProps;
  (** whether ['load'] has fired: Mapbox fires it once *)
  loaded : bool;
  (** the calls the map has received *)
  calls : list Instruction;
  (** the exception that ended the listener, if one did *)
  failure : option JsError
}.

(** [const map = useRef<mapboxgl.Map | null>(null)]: the one piece of
    state a mounted component keeps between renders. *)
Record Mounted : Type := mkMounted {
  map_current : option MapboxMap
}.

Definition mount : Mounted := mkMounted None.

(** The body of [useEffect]: run after the first render and after every
    render in which [stateCoordinates], [landfills] or [zoom] is a new
    object. *)
Definition effect (p : MapComponentProps) (c : Mounted) : Mounted :=
  match map_current c with
  | Some _ => c
  | None =>
      let sc := stateCoordinates p in
      mkMounted (Some (mkMap "mapbox://styles/mapbox/streets-v11"
                             (statePoint sc) 10%float p false [] None))
  end.

(** What happens to a mounted component: it is rendered with props that
    make the effect run, or its map fires ['load']. *)
Inductive MapEvent : Type :=
| Render (p : MapComponentProps)
| Load.

Definition is_load (e : MapEvent) : bool :=
  match e with Load => true | Render _ => false end.

(** The component right after the render that creates the map. *)
Definition created (p : MapComponentProps) : Mounted :=
  effect p mount.

(** What the map shows: the calls it has received. *)
Definition shown (c : Mounted) : list Instruction :=
  match map_current c with
  | Some m => calls m
  | None => []
  end.

(** The end of the route line the map shows, if it shows one. *)
Fixpoint route_end (cs : list Instruction) : option LngLat :=
  match cs with
  | [] => None
  | AddSource _ [_; e] :: _ => Some e
  | _ :: cs' => route_end cs'
  end.

(** The calls of the listener up to the search. *)
Definition markers (p : MapComponentProps) : list Instruction :=
  let sc := stateCoordinates p in
  (AddControl "top-right"
   :: map (fun l => AddMarker None (landfillPoint l) (H3 (name l))) (landfills p)
   ++ [AddMarker (Some "#FF0000") (statePoint sc) (H3 (stateName sc))])%list.

(** The calls of the listener after the search, [found] being its result
    and [nearest] the landfill it selected. *)
Definition route (sc : StateCoordinates) (found : Nearest) (nearest : Landfill) :
  list Instruction :=
  [ AddSource "shortest-path" [statePoint sc; landfillPoint nearest];
    AddLayer "shortest-path" "shortest-path" shortest_path_paint;
    AddPopup ((state_lon sc + lon nearest) / 2, (state_lat sc + lat nearest) / 2)%float
             (H3ShortestDistance (shortestDistance found)) ].

(** *** The search and the load listener *)

Section Search.

(** [turf.distance(from, to, { units: 'kilometers' })], from the
    [@turf/turf] package. *)
Variable distance : LngLat -> LngLat -> float.

(** The body of the [forEach] callback of the search. *)
Definition visit (sp : LngLat) (acc : Nearest) (landfill : Landfill) : Nearest :=
  let d := distance sp (landfillPoint landfill) in
  if PrimFloat.ltb d (shortestDistance acc)
  then mkNearest d (Some landfill)
  else acc.

(** [let nearestLandfill = landfills[0]; let shortestDistance = Infinity;
    landfills.forEach(...)] *)
Definition findNearest (sc : StateCoordinates) (ls : list Landfill) : Nearest :=
  fold_left (visit (statePoint sc)) ls (mkNearest infinity (nth_error ls 0)).

(** What holds of the two variables of the search once the landfills
    [seen] have been visited, [first] being the initial value of
    [nearestLandfill]: no landfill seen is below [shortestDistance], and
    either nothing was selected yet, or the selected landfill is one of
    those seen, at distance [shortestDistance], and strictly nearer than
    all those seen before it. *)
Definition search_inv (sp : LngLat) (first : option Landfill) (seen : list Landfill)
    (acc : Nearest) : Prop :=
  (forall l, In l seen ->
             PrimFloat.ltb (distance sp (landfillPoint l)) (shortestDistance acc) = false) /\
  ((shortestDistance acc = infinity /\ nearestLandfill acc = first) \/
   (exists before r after,
       seen = before ++ r :: after /\
       nearestLandfill acc = Some r /\
       shortestDistance acc = distance sp (landfillPoint r) /\
       forall l, In l before ->
                 PrimFloat.ltb (distance sp (landfillPoint r))
                               (distance sp (landfillPoint l)) = true))%list.

(** The listener of the map's ['load'] event, closed over the props of
    the render that created the map.  The calls into Turf and Mapbox are
    taken to return, as they do on [valid_props]; the one exception the
    listener itself can raise is the read of an undefined landfill. *)
Definition onLoad (p : MapComponentProps) : Handler unit :=
  let sc := stateCoordinates p in
  emit (AddControl "top-right") ;;
  forEach (fun landfill =>
             emit (AddMarker None (landfillPoint landfill) (H3 (name landfill))))
          (landfills p) ;;
  emit (AddMarker (Some "#FF0000") (statePoint sc) (H3 (stateName sc))) ;;
  let found := findNearest sc (landfills p) in
  nearest <- deref (nearestLandfill found) ;;
  emit (AddSource "shortest-path" [statePoint sc; landfillPoint nearest]) ;;
  emit (AddLayer "shortest-path" "shortest-path" shortest_path_paint) ;;
  emit (AddPopup ((state_lon sc + lon nearest) / 2, (state_lat sc + lat nearest) / 2)%float
                 (H3ShortestDistance (shortestDistance found))).

(** The map's ['load'] event. *)
Definition load (c : Mounted) : Mounted :=
  match map_current c with
  | None => c
  | Some m =>
      if loaded m then c
      else
        let '(done, r) := onLoad (listener m) (calls m) in
        mkMounted (Some (mkMap (style m) (center m) (zoom m) (listener m) true done
                               (match r with inl _ => None | inr e => Some e end)))
  end.

Definition react (c : Mounted) (e : MapEvent) : Mounted :=
  match e with
  | Render p => effect p c
  | Load => load c
  end.

Definition run (es : list MapEvent) (c : Mounted) : Mounted :=
  fold_left react es c.

End Search.

End MapTsx.


(** ** The page *)

Module Page.

(** The signed-in Firebase user, as far as the page looks at it. *)
Record User : Type := mkUser {
  uid : string
}.

Record WasteComposition : Type := mkWasteComposition {
  organic : string;
  plastic : string;
  paper : string;
  metal : string;
  glass : string;
  other : string
}.

Record WasteManagementMethods : Type := mkWasteManagementMethods {
  landfill : string;
  recycling : string;
  composting : string;
  incineration : string
}.

Record LandfillData : Type := mkLandfillData {
  lat : float;
  lon : float;
  name : string;
  distance_to_landfill_from_sector : option string
}.

Record Coordinates : Type := mkCoordinates {
  state_lat : float;
  state_lon : float;
  landfills : list LandfillData
}.

Record EnrichedData : Type := mkEnrichedData {
  sector_name : string;  (** the field [sector] *)
  total_waste_generated : string;
  waste_composition : WasteComposition;
  recycling_rate : string;
  waste_management_methods : WasteManagementMethods;
  key_challenges : list string;
  initiatives : list string;
  data_year : string;
  condition_of_roads_to_landfills : string;
  coordinates : Coordinates
}.

Record RouteDetail : Type := mkRouteDetail {
  Route : string;
  Closeness_Coefficient : float;
  Ranking : float
}.

Record UserLocation : Type := mkUserLocation {
  latitude : option float;
  longitude : option float
}.

(** The React state of [Home], one field per [useState]. *)
Record Home : Type := mkHome {
  user : option User;
  phoneNo : string;
  sector : string;
  enrichedData : option EnrichedData;
  routeDetails : option (list RouteDetail);
  isThereData : bool;
  loading : bool;
  loginError : option string;
  logoutError : option string;
  isInformed : bool;
  isInputStage : bool;
  userLocation : UserLocation;
  locationError : option string;
  collectionEfficiency : float;
  mileage : float;
  petrolLeft : float
}.

(** The initial values of the [useState] calls. *)
Definition initial : Home :=
  mkHome None "" "" None None false false None None false false
         (mkUserLocation None None) None 85%float 10%float 50%float.

(** *** State setters *)

Definition setUser (v : option User) (h : Home) : Home :=
  mkHome v (phoneNo h) (sector h) (enrichedData h) (routeDetails h) (isThereData h)
         (loading h) (loginError h) (logoutError h) (isInformed h) (isInputStage h)
         (userLocation h) (locationError h) (collectionEfficiency h) (mileage h) (petrolLeft h).

Definition setPhoneNo (v : string) (h : Home) : Home :=
  mkHome (user h) v (sector h) (enrichedData h) (routeDetails h) (isThereData h)
         (loading h) (loginError h) (logoutError h) (isInformed h) (isInputStage h)
         (userLocation h) (locationError h) (collectionEfficiency h) (mileage h) (petrolLeft h).

Definition setSector (v : string) (h : Home) : Home :=
  mkHome (user h) (phoneNo h) v (enrichedData h) (routeDetails h) (isThereData h)
         (loading h) (loginError h) (logoutError h) (isInformed h) (isInputStage h)
         (userLocation h) (locationError h) (collectionEfficiency h) (mileage h) (petrolLeft h).

Definition setEnrichedData (v : option EnrichedData) (h : Home) : Home :=
  mkHome (user h) (phoneNo h) (sector h) v (routeDetails h) (isThereData h)
         (loading h) (loginError h) (logoutError h) (isInformed h) (isInputStage h)
         (userLocation h) (locationError h) (collectionEfficiency h) (mileage h) (petrolLeft h).

Definition setRouteDetails (v : option (list RouteDetail)) (h : Home) : Home :=
  mkHome (user h) (phoneNo h) (sector h) (enrichedData h) v (isThereData h)
         (loading h) (loginError h) (logoutError h) (isInformed h) (isInputStage h)
         (userLocation h) (locationError h) (collectionEfficiency h) (mileage h) (petrolLeft h).

Definition setIsThereData (v : bool) (h : Home) : Home :=
  mkHome (user h) (phoneNo h) (sector h) (enrichedData h) (routeDetails h) v
         (loading h) (loginError h) (logoutError h) (isInformed h) (isInputStage h)
         (userLocation h) (locationError h) (collectionEfficiency h) (mileage h) (petrolLeft h).

Definition setLoading (v : bool) (h : Home) : Home :=
  mkHome (user h) (phoneNo h) (sector h) (enrichedData h) (routeDetails h) (isThereData h)
         v (loginError h) (logoutError h) (isInformed h) (isInputStage h)
         (userLocation h) (locationError h) (collectionEfficiency h) (mileage h) (petrolLeft h).

Definition setLoginError (v : option string) (h : Home) : Home :=
  mkHome (user h) (phoneNo h) (sector h) (enrichedData h) (routeDetails h) (isThereData h)
         (loading h) v (logoutError h) (isInformed h) (isInputStage h)
         (userLocation h) (locationError h) (collectionEfficiency h) (mileage h) (petrolLeft h).

Definition setLogoutError (v : option string) (h : Home) : Home :=
  mkHome (user h) (phoneNo h) (sector h) (enrichedData h) (routeDetails h) (isThereData h)
         (loading h) (loginError h) v (isInformed h) (isInputStage h)
         (userLocation h) (locationError h) (collectionEfficiency h) (mileage h) (petrolLeft h).

Definition setIsInformed (v : bool) (h : Home) : Home :=
  mkHome (user h) (phoneNo h) (sector h) (enrichedData h) (routeDetails h) (isThereData h)
         (loading h) (loginError h) (logoutError h) v (isInputStage h)
         (userLocation h) (locationError h) (collectionEfficiency h) (mileage h) (petrolLeft h).

Definition setIsInputStage (v : bool) (h : Home) : Home :=
  mkHome (user h) (phoneNo h) (sector h) (enrichedData h) (routeDetails h) (isThereData h)
         (loading h) (loginError h) (logoutError h) (isInformed h) v
         (userLocation h) (locationError h) (collectionEfficiency h) (mileage h) (petrolLeft h).

Definition setUserLocation (v : UserLocation) (h : Home) : Home :=
  mkHome (user h) (phoneNo h) (sector h) (enrichedData h) (routeDetails h) (isThereData h)
         (loading h) (loginError h) (logoutError h) (isInformed h) (isInputStage h)
         v (locationError h) (collectionEfficiency h) (mileage h) (petrolLeft h).

Definition setLocationError (v : option string) (h : Home) : Home :=
  mkHome (user h) (phoneNo h) (sector h) (enrichedData h) (routeDetails h) (isThereData h)
         (loading h) (loginError h) (logoutError h) (isInformed h) (isInputStage h)
         (userLocation h) v (collectionEfficiency h) (mileage h) (petrolLeft h).

Definition setCollectionEfficiency (v : float) (h : Home) : Home :=
  mkHome (user h) (phoneNo h) (sector h) (enrichedData h) (routeDetails h) (isThereData h)
         (loading h) (loginError h) (logoutError h) (isInformed h) (isInputStage h)
         (userLocation h) (locationError h) v (mileage h) (petrolLeft h).

Definition setMileage (v : float) (h : Home) : Home :=
  mkHome (user h) (phoneNo h) (sector h) (enrichedData h) (routeDetails h) (isThereData h)
         (loading h) (loginError h) (logoutError h) (isInformed h) (isInputStage h)
         (userLocation h) (locationError h) (collectionEfficiency h) v (petrolLeft h).

Definition setPetrolLeft (v : float) (h : Home) : Home :=
  mkHome (user h) (phoneNo h) (sector h) (enrichedData h) (routeDetails h) (isThereData h)
         (loading h) (loginError h) (logoutError h) (isInformed h) (isInputStage h)
         (userLocation h) (locationError h) (collectionEfficiency h) (mileage h) v.

(** Statements of a handler run top to bottom: [h |> f |> g] is [f] then [g]. *)
Notation "h |> f" := (f h) (at level 45, left associativity, only parsing).

(** *** Handlers

    An [async] handler is given by the piece that runs when it is called
    and the pieces that run when the awaited promise settles. *)

(** [auth.onAuthStateChanged((user) => { setUser(user) })] *)
Definition onAuthStateChanged (u : option User) (h : Home) : Home :=
  h |> setUser u.

(** [handleLogin]: nothing but the [catch] touches the state. *)
Definition handleLogin_rejected (h : Home) : Home :=
  h |> setLoginError (Some "Failed to log in. Please try again.").

(** [handleLogout], up to [await auth.signOut()]. *)
Definition handleLogout_called (h : Home) : Home :=
  h |> setIsThereData false
    |> setEnrichedData None
    |> setIsInformed false
    |> setIsInputStage false.

(** [handleLogout], the [catch]. *)
Definition handleLogout_rejected (h : Home) : Home :=
  h |> setLogoutError (Some "Failed to log out. Please try again.").

(** [getUserLocation], up to the call of [getCurrentPosition];
    [supported] is ["geolocation" in navigator]. *)
Definition getUserLocation_called (supported : bool) (h : Home) : Home :=
  if supported
  then h |> setLoading true
  else h |> setLocationError (Some "Geolocation is not supported by your browser").

(** The success callback of [getCurrentPosition]. *)
Definition getUserLocation_position (lat lon : float) (h : Home) : Home :=
  h |> setUserLocation (mkUserLocation (Some lat) (Some lon))
    |> setLocationError None
    |> setLoading false.

(** The error callback of [getCurrentPosition]. *)
Definition getUserLocation_error (h : Home) : Home :=
  h |> setLocationError (Some "Unable to retrieve your location")
    |> setUserLocation (mkUserLocation None None)
    |> setLoading false.

(** The body of the request. *)
Record Payload : Type := mkPayload {
  payload_sector : string;
  payload_collection_efficiency : float;
  payload_mileage : float;
  payload_petrol_left : float;
  payload_userLocation : option UserLocation
}.

(** [userLocation.latitude && userLocation.longitude
      ? { latitude: userLocation.latitude, longitude: userLocation.longitude }
      : null] *)
Definition payloadLocation (l : UserLocation) : option UserLocation :=
  if JsNumber.truthy_opt (latitude l) && JsNumber.truthy_opt (longitude l)
  then Some (mkUserLocation (latitude l) (longitude l))
  else None.

Definition payload (h : Home) : Payload :=
  mkPayload (sector h) (collectionEfficiency h) (mileage h) (petrolLeft h)
            (payloadLocation (userLocation h)).

(** The body of a 2xx response. *)
Record Response : Type := mkResponse {
  data : EnrichedData;
  route_details : list RouteDetail
}.

(** [handleSubmit], up to [await fetch(...)]: the new state and the
    request sent. *)
Definition handleSubmit_called (h : Home) : Home * Payload :=
  (h |> setLoading true
     |> setLoginError None
     |> setLogoutError None
     |> setEnrichedData None,
   payload h).

(** [handleSubmit], after a 2xx response with body [r], and [finally]. *)
Definition handleSubmit_resolved (r : Response) (h : Home) : Home :=
  h |> setEnrichedData (Some (data r))
    |> setRouteDetails (Some (route_details r))
    |> setIsThereData true
    |> setLoading false.

(** [handleSubmit], the [catch] (the request failed, or the response was
    not 2xx, or its body was not JSON), and [finally]. *)
Definition handleSubmit_rejected (h : Home) : Home :=
  h |> setLoginError (Some "An error occurred while fetching enriched data. Please try again.")
    |> setLoading false.

(** [handleInform] *)
Definition handleInform (h : Home) : Home :=
  let h1 := h |> setLoading true |> setLoginError None |> setLogoutError None in
  if String.eqb (phoneNo h) "" && String.eqb (sector h) ""
  then h1 |> setLoginError (Some "Please enter either a phone number or select a sector")
          |> setLoading false
  else h1 |> setIsInformed true
          |> setIsInputStage true
          |> setLoading false.

(** The [onClick] of "Go Back". *)
Definition goBack (h : Home) : Home :=
  h |> setIsInformed false |> setIsInputStage false.

(** *** What is rendered *)

(** The content of the card. *)
Inductive Card : Type :=
| LoginButton
| InformForm
| InputForm
| NoForm.

Definition card (h : Home) : Card :=
  match user h with
  | None => LoginButton
  | Some _ =>
      if negb (isInformed h) then InformForm
      else if isInputStage h then InputForm
      else NoForm
  end.

(** [{isThereData && enrichedData && (...)}]: the data shown below the
    card, whoever is signed in. *)
Definition dataPanel (h : Home) : option EnrichedData :=
  if isThereData h then enrichedData h else None.

(** The props [MapComponent] is given inside the data panel. *)
Definition mapProps (d : EnrichedData) : MapTsx.MapComponentProps :=
  MapTsx.mkProps
    (MapTsx.mkStateCoordinates (sector_name d) (state_lat (coordinates d))
                               (state_lon (coordinates d)))
    (map (fun l => MapTsx.mkLandfill (lat l) (lon l) (name l))
         (landfills (coordinates d))).

(** The stage of the workflow the page shows. *)
Inductive SessionStage : Type :=
| Unauthenticated
| Informing
| InputtingParameters
| DataLoaded.

Definition stage (h : Home) : SessionStage :=
  match user h with
  | None => Unauthenticated
  | Some _ =>
      match dataPanel h with
      | Some _ => DataLoaded
      | None => if isInformed h && isInputStage h then InputtingParameters else Informing
      end
  end.

(** *** Executions

    The page together with the operations it is waiting for. *)
Record World : Type := mkWorld {
  home : Home;
  (** [signInWithPopup] calls not yet settled *)
  signingIn : nat;
  (** [auth.signOut] calls not yet settled *)
  signingOut : nat;
  (** [getCurrentPosition] calls not yet answered *)
  locating : nat;
  (** requests sent and not yet answered, oldest first *)
  fetching : list Payload
}.

Definition start : World := mkWorld initial 0 0 0 [].

Inductive Event : Type :=
| ClickLogin
| SignInResolved (u : User)
| SignInRejected
| ChangeSector (v : string)
| ChangePhoneNo (v : string)
| SubmitInform
| ChangeCollectionEfficiency (v : float)
| ChangeMileage (v : float)
| ChangePetrolLeft (v : float)
| ClickGetLocation (supported : bool)
| PositionFound (lat lon : float)
| PositionError
| SubmitInput
| FetchResolved (r : Response)
| FetchRejected
| ClickGoBack
| ClickLogout
| SignOutResolved
| SignOutRejected.

Definition is_some {A : Type} (o : option A) : bool :=
  match o with Some _ => true | None => false end.

Definition showsInformForm (h : Home) : bool :=
  match card h with InformForm => true | _ => false end.

Definition showsInputForm (h : Home) : bool :=
  match card h with InputForm => true | _ => false end.

Definition withHome (w : World) (h : Home) : World :=
  mkWorld h (signingIn w) (signingOut w) (locating w) (fetching w).

(** One event: [None] when the page does not offer it (the control is not
    rendered or is disabled) or nothing is pending that could settle.  The
    browser's own validation of the number inputs is left out: any number
    can be entered. *)
Definition step (w : World) (e : Event) : option World :=
  let h := home w in
  match e with
  | ClickLogin =>
      if is_some (user h) then None
      else Some (mkWorld h (S (signingIn w)) (signingOut w) (locating w) (fetching w))
  | SignInResolved u =>
      match signingIn w with
      | O => None
      | S n => Some (mkWorld (onAuthStateChanged (Some u) h) n (signingOut w)
                             (locating w) (fetching w))
      end
  | SignInRejected =>
      match signingIn w with
      | O => None
      | S n => Some (mkWorld (handleLogin_rejected h) n (signingOut w)
                             (locating w) (fetching w))
      end
  | ChangeSector v =>
      if showsInformForm h then Some (withHome w (setSector v h)) else None
  | ChangePhoneNo v =>
      if showsInformForm h then Some (withHome w (setPhoneNo v h)) else None
  | SubmitInform =>
      if showsInformForm h && negb (loading h)
      then Some (withHome w (handleInform h)) else None
  | ChangeCollectionEfficiency v =>
      if showsInputForm h then Some (withHome w (setCollectionEfficiency v h)) else None
  | ChangeMileage v =>
      if showsInputForm h then Some (withHome w (setMileage v h)) else None
  | ChangePetrolLeft v =>
      if showsInputForm h then Some (withHome w (setPetrolLeft v h)) else None
  | ClickGetLocation supported =>
      if showsInputForm h && negb (loading h)
      then Some (mkWorld (getUserLocation_called supported h) (signingIn w) (signingOut w)
                         (if supported then S (locating w) else locating w) (fetching w))
      else None
  | PositionFound la lo =>
      match locating w with
      | O => None
      | S n => Some (mkWorld (getUserLocation_position la lo h) (signingIn w)
                             (signingOut w) n (fetching w))
      end
  | PositionError =>
      match locating w with
      | O => None
      | S n => Some (mkWorld (getUserLocation_error h) (signingIn w)
                             (signingOut w) n (fetching w))
      end
  | SubmitInput =>
      if showsInputForm h && negb (loading h)
      then let '(h', p) := handleSubmit_called h in
           Some (mkWorld h' (signingIn w) (signingOut w) (locating w)
                         (fetching w ++ [p])%list)
      else None
  | FetchResolved r =>
      match fetching w with
      | [] => None
      | _ :: rest => Some (mkWorld (handleSubmit_resolved r h) (signingIn w)
                                   (signingOut w) (locating w) rest)
      end
  | FetchRejected =>
      match fetching w with
      | [] => None
      | _ :: rest => Some (mkWorld (handleSubmit_rejected h) (signingIn w)
                                   (signingOut w) (locating w) rest)
      end
  | ClickGoBack =>
      if showsInputForm h then Some (withHome w (goBack h)) else None
  | ClickLogout =>
      if is_some (user h)
      then Some (mkWorld (handleLogout_called h) (signingIn w) (S (signingOut w))
                         (locating w) (fetching w))
      else None
  | SignOutResolved =>
      match signingOut w with
      | O => None
      | S n => Some (mkWorld (onAuthStateChanged None h) (signingIn w) n
                             (locating w) (fetching w))
      end
  | SignOutRejected =>
      match signingOut w with
      | O => None
      | S n => Some (mkWorld (handleLogout_rejected h) (signingIn w) n
                             (locating w) (fetching w))
      end
  end.

Fixpoint exec (w : World) (es : list Event) : option World :=
  match es with
  | [] => Some w
  | e :: es' =>
      match step w e with
      | Some w' => exec w' es'
      | None => None
      end
  end.

(** What the [loading] flag achieves: at most one request or location
    call is pending, [loading] is set while one is, and no enrichment data is
    held while a request is pending. *)
Definition pending_inv (w : World) : Prop :=
  List.length (fetching w) + locating w <= 1 /\
  (loading (home w) = false -> fetching w = [] /\ locating w = 0) /\
  (fetching w <> [] -> enrichedData (home w) = None).

(** The states the page can be in: those some execution from [start]
    ends in. *)
Definition reachable (w : World) : Prop :=
  exists es, exec start es = Some w.

(** "Go Back" sits inside the input form and is given no [type]: whether a
    click on it also submits the form is decided by the [Button] component,
    which is not part of the repository.  [ClickGoBack] is its [onClick]
    alone; the properties that depend on what is pending are stated for the
    executions without it. *)
Definition is_go_back (e : Event) : bool :=
  match e with ClickGoBack => true | _ => false end.

End Page.


(** ** The page, as [src/frontend/src/app/page.tsx] has it

    The version of [Home] with a single form (state and country) shown to
    every signed-in user. *)

Module PageTsx.

Record Landfill : Type := mkLandfill {
  lat : float;
  lon : float;
  name : string
}.

Record Coordinates : Type := mkCoordinates {
  state_lat : float;
  state_lon : float;
  landfills : list Landfill
}.

Record EnrichedData : Type := mkEnrichedData {
  state_name : string;  (** the field [state] *)
  country_name : string;  (** the field [country] *)
  total_waste_generated : string;
  waste_composition : Page.WasteComposition;
  recycling_rate : string;
  waste_management_methods : Page.WasteManagementMethods;
  key_challenges : list string;
  initiatives : list string;
  data_year : string;
  coordinates : Coordinates
}.

(** The React state of [Home], one field per [useState]. *)
Record Home : Type := mkHome {
  user : option Page.User;
  state : string;
  country : string;
  enrichedData : option EnrichedData;
  isThereData : bool;
  loading : bool;
  loginError : option string;
  logoutError : option string
}.

Definition initial : Home := mkHome None "" "" None false false None None.

Definition setUser (v : option Page.User) (h : Home) : Home :=
  mkHome v (state h) (country h) (enrichedData h) (isThereData h) (loading h)
         (loginError h) (logoutError h).

Definition setState (v : string) (h : Home) : Home :=
  mkHome (user h) v (country h) (enrichedData h) (isThereData h) (loading h)
         (loginError h) (logoutError h).

Definition setCountry (v : string) (h : Home) : Home :=
  mkHome (user h) (state h) v (enrichedData h) (isThereData h) (loading h)
         (loginError h) (logoutError h).

Definition setEnrichedData (v : option EnrichedData) (h : Home) : Home :=
  mkHome (user h) (state h) (country h) v (isThereData h) (loading h)
         (loginError h) (logoutError h).

Definition setIsThereData (v : bool) (h : Home) : Home :=
  mkHome (user h) (state h) (country h) (enrichedData h) v (loading h)
         (loginError h) (logoutError h).

Definition setLoading (v : bool) (h : Home) : Home :=
  mkHome (user h) (state h) (country h) (enrichedData h) (isThereData h) v
         (loginError h) (logoutError h).

Definition setLoginError (v : option string) (h : Home) : Home :=
  mkHome (user h) (state h) (country h) (enrichedData h) (isThereData h) (loading h)
         v (logoutError h).

Definition setLogoutError (v : option string) (h : Home) : Home :=
  mkHome (user h) (state h) (country h) (enrichedData h) (isThereData h) (loading h)
         (loginError h) v.

Notation "h |> f" := (f h) (at level 45, left associativity, only parsing).

(** [auth.onAuthStateChanged((user) => { setUser(user) })] *)
Definition onAuthStateChanged (u : option Page.User) (h : Home) : Home :=
  h |> setUser u.

(** [handleLogin], the [catch]. *)
Definition handleLogin_rejected (h : Home) : Home :=
  h |> setLoginError (Some "Failed to log in. Please try again.").

(** [handleLogout], up to [await auth.signOut()]. *)
Definition handleLogout_called (h : Home) : Home :=
  h |> setIsThereData false |> setEnrichedData None.

(** [handleLogout], the [catch]. *)
Definition handleLogout_rejected (h : Home) : Home :=
  h |> setLogoutError (Some "Failed to log out. Please try again.").

(** [JSON.stringify({ state, country })] *)
Record Payload : Type := mkPayload {
  payload_state : string;
  payload_country : string
}.

(** [handleSubmit], up to [await fetch(...)]: the new state and the
    request sent. *)
Definition handleSubmit_called (h : Home) : Home * Payload :=
  (h |> setLoading true
     |> setLoginError None
     |> setLogoutError None
     |> setEnrichedData None,
   mkPayload (state h) (country h)).

(** [handleSubmit], after a 2xx response with body [d], and [finally]. *)
Definition handleSubmit_resolved (d : EnrichedData) (h : Home) : Home :=
  h |> setEnrichedData (Some d)
    |> setIsThereData true
    |> setLoading false.

(** [handleSubmit], the [catch], and [finally]. *)
Definition handleSubmit_rejected (h : Home) : Home :=
  h |> setLoginError (Some "An error occurred while fetching enriched data. Please try again.")
    |> setLoading false.

(** [{isThereData && enrichedData && (...)}] *)
Definition dataPanel (h : Home) : option EnrichedData :=
  if isThereData h then enrichedData h else None.

(** The props [MapComponent] is given inside the data panel. *)
Definition mapProps (d : EnrichedData) : MapTsx.MapComponentProps :=
  MapTsx.mkProps
    (MapTsx.mkStateCoordinates (state_name d) (state_lat (coordinates d))
                               (state_lon (coordinates d)))
    (map (fun l => MapTsx.mkLandfill (lat l) (lon l) (name l))
         (landfills (coordinates d))).

(** The page together with the operations it is waiting for. *)
Record World : Type := mkWorld {
  home : Home;
  signingIn : nat;
  signingOut : nat;
  (** requests sent and not yet answered, oldest first *)
  fetching : list Payload
}.

Definition start : World := mkWorld initial 0 0 [].

Inductive Event : Type :=
| ClickLogin
| SignInResolved (u : Page.User)
| SignInRejected
| ChangeState (v : string)
| ChangeCountry (v : string)
| Submit
| FetchResolved (d : EnrichedData)
| FetchRejected
| ClickLogout
| SignOutResolved
| SignOutRejected.

(** One event: [None] when the page does not offer it or nothing is pending
    that could settle.  The form and the log-out button are rendered for a
    signed-in user, the submit button is disabled while [loading]; the
    browser's own validation of the two [required] inputs is left out, so
    the page is given more executions than a browser allows. *)
Definition step (w : World) (e : Event) : option World :=
  let h := home w in
  match e with
  | ClickLogin =>
      if Page.is_some (user h) then None
      else Some (mkWorld h (S (signingIn w)) (signingOut w) (fetching w))
  | SignInResolved u =>
      match signingIn w with
      | O => None
      | S n => Some (mkWorld (onAuthStateChanged (Some u) h) n (signingOut w) (fetching w))
      end
  | SignInRejected =>
      match signingIn w with
      | O => None
      | S n => Some (mkWorld (handleLogin_rejected h) n (signingOut w) (fetching w))
      end
  | ChangeState v =>
      if Page.is_some (user h)
      then Some (mkWorld (setState v h) (signingIn w) (signingOut w) (fetching w))
      else None
  | ChangeCountry v =>
      if Page.is_some (user h)
      then Some (mkWorld (setCountry v h) (signingIn w) (signingOut w) (fetching w))
      else None
  | Submit =>
      if Page.is_some (user h) && negb (loading h)
      then let '(h', p) := handleSubmit_called h in
           Some (mkWorld h' (signingIn w) (signingOut w) (fetching w ++ [p])%list)
      else None
  | FetchResolved d =>
      match fetching w with
      | [] => None
      | _ :: rest => Some (mkWorld (handleSubmit_resolved d h) (signingIn w)
                                   (signingOut w) rest)
      end
  | FetchRejected =>
      match fetching w with
      | [] => None
      | _ :: rest => Some (mkWorld (handleSubmit_rejected h) (signingIn w)
                                   (signingOut w) rest)
      end
  | ClickLogout =>
      if Page.is_some (user h)
      then Some (mkWorld (handleLogout_called h) (signingIn w) (S (signingOut w))
                         (fetching w))
      else None
  | SignOutResolved =>
      match signingOut w with
      | O => None
      | S n => Some (mkWorld (onAuthStateChanged None h) (signingIn w) n (fetching w))
      end
  | SignOutRejected =>
      match signingOut w with
      | O => None
      | S n => Some (mkWorld (handleLogout_rejected h) (signingIn w) n (fetching w))
      end
  end.

Fixpoint exec (w : World) (es : list Event) : option World :=
  match es with
  | [] => Some w
  | e :: es' =>
      match step w e with
      | Some w' => exec w' es'
      | None => None
      end
  end.

Definition reachable (w : World) : Prop :=
  exists es, exec start es = Some w.

End PageTsx.


(** ** Sample data

    Inputs on which the properties below are exercised.  [turf.distance]
    is not part of the repository; where a concrete distance is needed the
    examples use a flat approximation of it, about 111.19 km per degree. *)

Module Samples.

Import MapTsx.

Definition flat_distance (a b : LngLat) : float :=
  (sqrt ((fst a - fst b) * (fst a - fst b) + (snd a - snd b) * (snd a - snd b))
   * 111.19)%float.

Definition sector5 : StateCoordinates :=
  mkStateCoordinates "Sector 5" 30.73%float 76.77%float.

Definition landfill_A : Landfill := mkLandfill 30.74%float 76.78%float "Landfill A".
Definition landfill_B : Landfill := mkLandfill 30.80%float 76.90%float "Landfill B".

(** A centre with one landfill half a degree to the north and two landfills
    a quarter of a degree away, one to the east and one to the west. *)
Definition centre : StateCoordinates :=
  mkStateCoordinates "Centre" 30.5%float 76.5%float.

Definition far_north : Landfill := mkLandfill 31.0%float 76.5%float "North".
Definition near_east : Landfill := mkLandfill 30.5%float 76.75%float "East".
Definition near_west : Landfill := mkLandfill 30.5%float 76.25%float "West".

(** A distance that is never a number, as for coordinates that are not
    numbers. *)
Definition nan_distance (a b : LngLat) : float := nan.

(** Two results for the same sector, with different landfills. *)
Definition first_props : MapComponentProps := mkProps sector5 [landfill_A].
Definition second_props : MapComponentProps := mkProps sector5 [landfill_B].

Import Page.

Definition somebody : User := mkUser "user-1".

Definition sector5_data : EnrichedData :=
  mkEnrichedData "Sector 5" "120 tonnes per day"
    (mkWasteComposition "50%" "15%" "12%" "5%" "6%" "12%")
    "25%"
    (mkWasteManagementMethods "60%" "25%" "10%" "5%")
    ["Segregation at source"] ["Door-to-door collection"] "2023" "Good"
    (mkCoordinates 30.73%float 76.77%float
       [ mkLandfillData 30.74%float 76.78%float "Landfill A" None;
         mkLandfillData 30.80%float 76.90%float "Landfill B" (Some "9.1 km") ]).

Definition sector5_response : Response :=
  mkResponse sector5_data [mkRouteDetail "Route 1" 0.8%float 1%float].

(** Sign in, choose Sector 5 and inform: the input form is shown. *)
Definition to_input_form : list Event :=
  [ClickLogin; SignInResolved somebody; ChangeSector "Sector 5"; SubmitInform].

(** ... then acquire the device location, submit, and receive the data. *)
Definition to_data_loaded : list Event :=
  (to_input_form
   ++ [ClickGetLocation true; PositionFound 30.7333%float 76.7794%float;
       SubmitInput; FetchResolved sector5_response])%list.

(** Sign out while the request is pending; the response arrives after the
    sign-out has completed. *)
Definition logout_during_fetch : list Event :=
  (to_input_form ++ [SubmitInput; ClickLogout; SignOutResolved])%list.

(** A session on the page of [page.tsx]: sign in and enter a state and a
    country. *)
Definition punjab_data : PageTsx.EnrichedData :=
  PageTsx.mkEnrichedData "Punjab" "India" "4100 tonnes per day"
    (mkWasteComposition "55%" "12%" "10%" "4%" "5%" "14%")
    "20%"
    (mkWasteManagementMethods "70%" "20%" "8%" "2%")
    ["Open dumping"] ["Waste-to-energy plants"] "2022"
    (PageTsx.mkCoordinates 31.1471%float 75.3412%float
       [ PageTsx.mkLandfill 30.90%float 75.85%float "Ludhiana";
         PageTsx.mkLandfill 31.63%float 74.87%float "Amritsar" ]).

Definition v1_to_form : list PageTsx.Event :=
  [PageTsx.ClickLogin; PageTsx.SignInResolved somebody;
   PageTsx.ChangeState "Punjab"; PageTsx.ChangeCountry "India"].

Definition v1_logout_during_fetch : list PageTsx.Event :=
  (v1_to_form ++ [PageTsx.Submit; PageTsx.ClickLogout; PageTsx.SignOutResolved])%list.

(** The device is on the equator when the location is acquired. *)
Definition on_the_equator : list Event :=
  (to_input_form ++ [ClickGetLocation true; PositionFound 0%float 36.8%float])%list.

End Samples.


(** * Properties *)

(** ** Order of JavaScript numbers

    [<] and [<=] on doubles, through the specification of the primitive
    floats: what the search for the nearest landfill relies on. *)

Module JsNumberFacts.

Ltac cmp_cases :=
  repeat match goal with
  | H : context [Z.compare ?a ?b] |- _ => destruct (Z.compare_spec a b); subst
  | |- context [Z.compare ?a ?b] => destruct (Z.compare_spec a b); subst
  | H : context [Pos.compare_cont Eq ?a ?b] |- _ =>
      change (Pos.compare_cont Eq a b) with (Pos.compare a b) in *;
      destruct (Pos.compare_spec a b); subst
  | |- context [Pos.compare_cont Eq ?a ?b] =>
      change (Pos.compare_cont Eq a b) with (Pos.compare a b) in *;
      destruct (Pos.compare_spec a b); subst
  end.

Ltac by_cases_on_compare :=
  cmp_cases; simpl in *;
  try discriminate; try reflexivity; try lia; try congruence.

Lemma SFltb_below (x s c : spec_float) :
  SFltb x s = true -> SFltb c s = false -> c <> S754_nan -> SFltb x c = true.
Proof.
  unfold SFltb, SFcompare.
  destruct x as [sx | sx | | sx mx ex], s as [ss | ss | | ss ms es],
    c as [sc | sc | | sc mc ec];
    try destruct sx; try destruct ss; try destruct sc;
    try discriminate; try congruence; intros Hx Hc Hn; by_cases_on_compare.
Qed.

Lemma SFltb_asym (x y : spec_float) :
  SFltb x y = true -> SFltb y x = false.
Proof.
  unfold SFltb, SFcompare.
  destruct x as [sx | sx | | sx mx ex], y as [sy | sy | | sy my ey];
    try destruct sx; try destruct sy;
    try discriminate; try reflexivity; intros Hx; by_cases_on_compare.
Qed.

Lemma SFleb_of_not_ltb (c r : spec_float) :
  SFltb c r = false -> c <> S754_nan -> r <> S754_nan -> SFleb r c = true.
Proof.
  unfold SFltb, SFleb, SFcompare.
  destruct r as [sr | sr | | sr mr er], c as [sc | sc | | sc mc ec];
    try destruct sr; try destruct sc;
    try discriminate; try congruence; intros Hx Hc Hn; by_cases_on_compare.
Qed.

Lemma SFltb_infinity (c : spec_float) :
  SFltb c (S754_infinity false) = false -> c <> S754_nan -> c = S754_infinity false.
Proof.
  unfold SFltb, SFcompare.
  destruct c as [sc | sc | | sc mc ec]; try destruct sc;
    try discriminate; try congruence.
Qed.

Lemma SFeqb_nan (x : spec_float) :
  SFeqb x x = false -> x = S754_nan.
Proof.
  unfold SFeqb, SFcompare.
  destruct x as [sx | sx | | sx mx ex]; try destruct sx;
    try discriminate; try reflexivity;
    rewrite Z.compare_refl;
    change (Pos.compare_cont Eq mx mx) with (Pos.compare mx mx);
    rewrite Pos.compare_refl; discriminate.
Qed.

Lemma number_not_nan (x : float) :
  PrimFloat.is_nan x = false -> Prim2SF x <> S754_nan.
Proof.
  unfold PrimFloat.is_nan. rewrite eqb_spec. intros H E.
  rewrite E in H. discriminate H.
Qed.

(** [x < s], and [c] is a number not below [s]: then [x < c]. *)
Lemma ltb_below (x s c : float) :
  PrimFloat.ltb x s = true -> PrimFloat.ltb c s = false ->
  PrimFloat.is_nan c = false -> PrimFloat.ltb x c = true.
Proof.
  rewrite !ltb_spec. intros Hx Hc Hn.
  apply (SFltb_below _ _ _ Hx Hc). now apply number_not_nan.
Qed.

Lemma ltb_asym (x y : float) :
  PrimFloat.ltb x y = true -> PrimFloat.ltb y x = false.
Proof. rewrite !ltb_spec. apply SFltb_asym. Qed.

Lemma ltb_irrefl (x : float) : PrimFloat.ltb x x = false.
Proof.
  destruct (PrimFloat.ltb x x) eqn:E; [ | reflexivity ].
  rewrite (ltb_asym _ _ E) in E. discriminate E.
Qed.

(** For numbers, "not [c < r]" is [r <= c]. *)
Lemma leb_of_not_ltb (c r : float) :
  PrimFloat.ltb c r = false ->
  PrimFloat.is_nan c = false -> PrimFloat.is_nan r = false ->
  PrimFloat.leb r c = true.
Proof.
  rewrite ltb_spec, leb_spec. intros H Hc Hr.
  apply SFleb_of_not_ltb; auto using number_not_nan.
Qed.

(** The only number not below [Infinity] is [Infinity]. *)
Lemma not_below_infinity (c : float) :
  PrimFloat.ltb c infinity = false -> PrimFloat.is_nan c = false -> c = infinity.
Proof.
  rewrite ltb_spec. intros H Hc.
  apply Prim2SF_inj.
  change (Prim2SF infinity) with (S754_infinity false) in *.
  apply SFltb_infinity; auto using number_not_nan.
Qed.

(** [<] is transitive, [NaN] being below nothing and nothing below it. *)
Lemma SFltb_trans (x y z : spec_float) :
  SFltb x y = true -> SFltb y z = true -> SFltb x z = true.
Proof.
  unfold SFltb, SFcompare.
  destruct x as [sx | sx | | sx mx ex], y as [sy | sy | | sy my ey],
    z as [sz | sz | | sz mz ez];
    try destruct sx; try destruct sy; try destruct sz;
    try discriminate; try reflexivity; intros Hxy Hyz; by_cases_on_compare.
Qed.

Lemma ltb_trans (x y z : float) :
  PrimFloat.ltb x y = true -> PrimFloat.ltb y z = true -> PrimFloat.ltb x z = true.
Proof. rewrite !ltb_spec. apply SFltb_trans. Qed.

(** Two numbers each at most the other are equal as numbers ([===]). *)
Lemma SFleb_antisym (x y : spec_float) :
  SFleb x y = true -> SFleb y x = true -> SFeqb x y = true.
Proof.
  unfold SFleb, SFeqb, SFcompare.
  destruct x as [sx | sx | | sx mx ex], y as [sy | sy | | sy my ey];
    try destruct sx; try destruct sy;
    try discriminate; try reflexivity; intros Hxy Hyx; by_cases_on_compare.
Qed.

Lemma leb_antisym (x y : float) :
  PrimFloat.leb x y = true -> PrimFloat.leb y x = true -> PrimFloat.eqb x y = true.
Proof. rewrite !leb_spec, eqb_spec. apply SFleb_antisym. Qed.

End JsNumberFacts.

(** ** The search for the nearest landfill *)

Module SearchFacts.

Import MapTsx JsNumberFacts.

Section WithDistance.

Variable distance : LngLat -> LngLat -> float.
Variable sp : LngLat.

(** Visiting one more landfill keeps the invariant of the search. *)
Lemma search_inv_visit first seen acc x :
  (forall l, In l seen -> PrimFloat.is_nan (distance sp (landfillPoint l)) = false) ->
  search_inv distance sp first seen acc ->
  search_inv distance sp first (seen ++ [x]) (visit distance sp acc x).
Proof.
  intros Hnum [Hlow Hsel]. unfold visit.
  set (dx := distance sp (landfillPoint x)).
  destruct (PrimFloat.ltb dx (shortestDistance acc)) eqn:Hlt.
  - (* [x] is selected *)
    assert (Hall : forall l, In l seen ->
                             PrimFloat.ltb dx (distance sp (landfillPoint l)) = true).
    { intros l Hl. apply (ltb_below _ _ _ Hlt (Hlow l Hl) (Hnum l Hl)). }
    split; simpl.
    + intros l Hl. apply in_app_or in Hl. destruct Hl as [Hl | [<- | []]].
      * apply ltb_asym, Hall, Hl.
      * apply ltb_irrefl.
    + right. exists seen, x, []. auto.
  - (* [x] is passed over *)
    split.
    + intros l Hl. apply in_app_or in Hl. destruct Hl as [Hl | [<- | []]]; auto.
    + destruct Hsel as [Hnone | (before & r & after & -> & Hr & Hd & Hfirst)].
      * left. exact Hnone.
      * right. exists before, r, (after ++ [x])%list.
        rewrite <- app_assoc. simpl. auto.
Qed.

(** So does visiting the rest of the array. *)
Lemma search_inv_fold first rest :
  forall seen acc,
    (forall l, In l (seen ++ rest) ->
               PrimFloat.is_nan (distance sp (landfillPoint l)) = false) ->
    search_inv distance sp first seen acc ->
    search_inv distance sp first (seen ++ rest) (fold_left (visit distance sp) rest acc).
Proof.
  induction rest as [ | x rest IH ]; intros seen acc Hnum Hinv; simpl.
  - rewrite app_nil_r. exact Hinv.
  - replace (seen ++ x :: rest)%list with ((seen ++ [x]) ++ rest)%list in *
      by (rewrite <- app_assoc; reflexivity).
    apply IH; [ exact Hnum | ].
    apply search_inv_visit; [ | exact Hinv ].
    intros l Hl. apply Hnum. apply in_or_app. left. apply in_or_app. now left.
Qed.

End WithDistance.

(** The search on the sample landfills: the two nearest ones are at the
    same distance, and the one that comes first in the array is selected. *)
Example findNearest_tie_east_first :
  nearestLandfill (findNearest Samples.flat_distance Samples.centre
                     [Samples.far_north; Samples.near_east; Samples.near_west])
  = Some Samples.near_east.
Proof. vm_compute. reflexivity. Qed.

Example findNearest_tie_west_first :
  nearestLandfill (findNearest Samples.flat_distance Samples.centre
                     [Samples.far_north; Samples.near_west; Samples.near_east])
  = Some Samples.near_west.
Proof. vm_compute. reflexivity. Qed.

Example findNearest_sector5 :
  nearestLandfill (findNearest Samples.flat_distance Samples.sector5
                     [Samples.landfill_A; Samples.landfill_B])
  = Some Samples.landfill_A.
Proof. vm_compute. reflexivity. Qed.

(** C5. On a non-empty array of landfills whose distances to the state
    centre are numbers (not [NaN]), the search ends with a landfill of the
    array and its distance: no landfill of the array is nearer, and every
    landfill that comes before it in the array is strictly farther, so
    among the nearest ones the first in array order is selected. *)
Theorem findNearest_minimal_first
    (distance : LngLat -> LngLat -> float) (sc : StateCoordinates) (ls : list Landfill) :
  ls <> [] ->
  (forall l, In l ls ->
             PrimFloat.is_nan (distance (statePoint sc) (landfillPoint l)) = false) ->
  exists before r after,
    ls = (before ++ r :: after)%list /\
    findNearest distance sc ls
    = mkNearest (distance (statePoint sc) (landfillPoint r)) (Some r) /\
    (forall l, In l ls ->
               PrimFloat.leb (distance (statePoint sc) (landfillPoint r))
                             (distance (statePoint sc) (landfillPoint l)) = true) /\
    (forall l, In l before ->
               PrimFloat.ltb (distance (statePoint sc) (landfillPoint r))
                             (distance (statePoint sc) (landfillPoint l)) = true).
Proof.
  intros Hne Hnum.
  destruct ls as [ | r0 tl ]; [ congruence | clear Hne ].
  assert (Hinit : search_inv distance (statePoint sc) (Some r0) []
                             (mkNearest infinity (Some r0))).
  { split; [ intros l [] | left; split; reflexivity ]. }
  pose proof (search_inv_fold distance (statePoint sc) (Some r0) (r0 :: tl) []
                (mkNearest infinity (Some r0)) Hnum Hinit) as [Hlow Hsel].
  cbn [app] in Hlow, Hsel.
  unfold findNearest. cbn [nth_error].
  destruct (fold_left (visit distance (statePoint sc)) (r0 :: tl)
                      (mkNearest infinity (Some r0))) as [sd nl].
  cbn [shortestDistance nearestLandfill] in Hlow, Hsel.
  destruct Hsel as [[-> ->] | (before & r & after & Hsplit & -> & -> & Hfirst)].
  - (* nothing was below [Infinity]: every distance is [Infinity] *)
    assert (Hinf : forall l, In l (r0 :: tl) ->
                             distance (statePoint sc) (landfillPoint l) = infinity).
    { intros l Hl. apply not_below_infinity; auto. }
    exists [], r0, tl. rewrite (Hinf r0 (or_introl eq_refl)).
    repeat split; [ | intros l [] ].
    intros l Hl. rewrite (Hinf l Hl). reflexivity.
  - exists before, r, after. repeat split; auto.
    intros l Hl. apply leb_of_not_ltb; auto.
    apply Hnum. rewrite Hsplit. apply in_or_app. right. now left.
Qed.

(** The sample search meets the conditions of C5. *)
Lemma findNearest_minimal_first_sample :
  exists before r after,
    [Samples.far_north; Samples.near_east; Samples.near_west]
    = (before ++ r :: after)%list /\
    findNearest Samples.flat_distance Samples.centre
                [Samples.far_north; Samples.near_east; Samples.near_west]
    = mkNearest (Samples.flat_distance (statePoint Samples.centre) (landfillPoint r))
                (Some r) /\
    (forall l, In l [Samples.far_north; Samples.near_east; Samples.near_west] ->
               PrimFloat.leb (Samples.flat_distance (statePoint Samples.centre) (landfillPoint r))
                             (Samples.flat_distance (statePoint Samples.centre) (landfillPoint l))
               = true) /\
    (forall l, In l before ->
               PrimFloat.ltb (Samples.flat_distance (statePoint Samples.centre) (landfillPoint r))
                             (Samples.flat_distance (statePoint Samples.centre) (landfillPoint l))
               = true).
Proof.
  apply (findNearest_minimal_first Samples.flat_distance Samples.centre
           [Samples.far_north; Samples.near_east; Samples.near_west]).
  - discriminate.
  - intros l [<- | [<- | [<- | []]]]; vm_compute; reflexivity.
Defined.

End SearchFacts.

(** ** The map component *)

Module MapFacts.

Import MapTsx.

Section WithDistance.

Variable distance : LngLat -> LngLat -> float.

Lemma forEach_emit {A : Type} (f : A -> Instruction) (l : list A) :
  forall done, forEach (fun a => emit (f a)) l done = ((done ++ map f l)%list, inl tt).
Proof.
  induction l as [ | a l IH ]; intros done; simpl.
  - unfold ret. now rewrite app_nil_r.
  - unfold bind, emit. rewrite IH, <- app_assoc. reflexivity.
Qed.

Lemma bind_emit {B : Type} (i : Instruction) (k : Handler B) done :
  bind (emit i) (fun _ => k) done = k (done ++ [i])%list.
Proof. reflexivity. Qed.

Lemma bind_forEach_emit {A B : Type} (f : A -> Instruction) (l : list A)
      (k : Handler B) done :
  bind (forEach (fun a => emit (f a)) l) (fun _ => k) done = k (done ++ map f l)%list.
Proof. unfold bind. now rewrite forEach_emit. Qed.

(** The listener, call by call. *)
Lemma onLoad_calls p done :
  onLoad distance p done =
  let sc := stateCoordinates p in
  let found := findNearest distance sc (landfills p) in
  match nearestLandfill found with
  | Some nearest => ((done ++ markers p ++ route sc found nearest)%list, inl tt)
  | None => ((done ++ markers p)%list, inr TypeError_lon)
  end.
Proof.
  unfold onLoad. rewrite bind_emit, bind_forEach_emit, bind_emit.
  cbv zeta. unfold markers, route.
  destruct (nearestLandfill (findNearest distance (stateCoordinates p) (landfills p)))
    as [nearest | ]; unfold bind, deref, ret, throw, emit; cbn [app];
    rewrite <- !app_assoc; reflexivity.
Qed.

(** The listener only adds to the calls already made. *)
Lemma onLoad_extends p done :
  fst (onLoad distance p done) = (done ++ fst (onLoad distance p []))%list.
Proof.
  rewrite !onLoad_calls. cbv zeta.
  destruct (nearestLandfill (findNearest distance (stateCoordinates p) (landfills p)));
    reflexivity.
Qed.

Lemma effect_keeps_map p c m :
  map_current c = Some m -> effect p c = c.
Proof. unfold effect. now intros ->. Qed.

(** The component once the map it created has loaded. *)
Lemma load_created_eq p :
  load distance (created p) =
  mkMounted (Some (mkMap "mapbox://styles/mapbox/streets-v11"
                         (statePoint (stateCoordinates p)) 10%float p true
                         (fst (onLoad distance p []))
                         (match snd (onLoad distance p []) with
                          | inl _ => None
                          | inr e => Some e
                          end))).
Proof.
  unfold created, effect, load; simpl.
  destruct (onLoad distance p []) as [done r]. reflexivity.
Qed.

Lemma load_created p :
  shown (load distance (created p)) = fst (onLoad distance p []).
Proof. now rewrite load_created_eq. Qed.

Lemma load_twice p :
  load distance (load distance (created p)) = load distance (created p).
Proof. now rewrite load_created_eq. Qed.

Lemma effect_created q p : effect q (created p) = created p.
Proof. reflexivity. Qed.

Lemma effect_loaded q p :
  effect q (load distance (created p)) = load distance (created p).
Proof. now rewrite load_created_eq. Qed.

(** Once ['load'] has fired, no event changes the component. *)
Lemma run_loaded p es :
  run distance es (load distance (created p)) = load distance (created p).
Proof.
  induction es as [ | [q | ] es IH ]; simpl; [ reflexivity | | ].
  - unfold run in *. simpl. now rewrite effect_loaded.
  - unfold run in *. simpl. now rewrite load_twice.
Qed.

(** After the render that creates the map, the component is in one of two
    states, whatever is rendered later. *)
Lemma run_created p es :
  run distance es (created p) =
  if existsb is_load es then load distance (created p) else created p.
Proof.
  induction es as [ | [q | ] es IH ]; simpl; [ reflexivity | | ].
  - unfold run in *. simpl. now rewrite effect_created.
  - apply run_loaded.
Qed.

End WithDistance.

(** The sample result, rendered: three markers' worth of calls, the line to
    Landfill A and the popup at the midpoint. *)
Example onLoad_sector5 :
  fst (onLoad Samples.flat_distance
              (mkProps Samples.sector5 [Samples.landfill_A; Samples.landfill_B]) [])
  = [ AddControl "top-right";
      AddMarker None (76.78, 30.74)%float (H3 "Landfill A");
      AddMarker None (76.90, 30.80)%float (H3 "Landfill B");
      AddMarker (Some "#FF0000") (76.77, 30.73)%float (H3 "Sector 5");
      AddSource "shortest-path" [(76.77, 30.73)%float; (76.78, 30.74)%float];
      AddLayer "shortest-path" "shortest-path" shortest_path_paint;
      AddPopup ((76.77 + 76.78) / 2, (30.73 + 30.74) / 2)%float
               (H3ShortestDistance
                  (Samples.flat_distance (76.77, 30.73)%float (76.78, 30.74)%float)) ].
Proof. vm_compute. reflexivity. Qed.

(** C4, as stated, fails: with no landfills the search raises nothing and
    ends with an undefined landfill at distance [Infinity], whatever the
    distance function; the exception that then stops the listener is the
    [TypeError] of reading that landfill, not an EmptyCandidateSet error. *)
Lemma findNearest_empty_is_silent :
  (forall distance : LngLat -> LngLat -> float,
      findNearest distance Samples.sector5 [] = mkNearest infinity None) /\
  (forall distance : LngLat -> LngLat -> float,
      snd (onLoad distance (mkProps Samples.sector5 []) []) = inr TypeError_lon) /\
  error_name TypeError_lon <> "EmptyCandidateSet".
Proof.
  split; [ reflexivity | split ].
  - intros distance. rewrite onLoad_calls. reflexivity.
  - discriminate.
Qed.

(** C4, amended. With no landfills the search computes no distance and
    raises nothing: it ends with [shortestDistance] at [Infinity] and
    [nearestLandfill] undefined.  The listener has by then added the
    control and the marker of the state centre; reading the longitude of the
    undefined landfill for the line then throws a [TypeError], and neither
    line nor popup is added. *)
Theorem findNearest_empty
    (distance : LngLat -> LngLat -> float) (sc : StateCoordinates)
    (done : list Instruction) :
  findNearest distance sc [] = mkNearest infinity None /\
  onLoad distance (mkProps sc []) done
  = ((done ++ [ AddControl "top-right";
                AddMarker (Some "#FF0000") (statePoint sc) (H3 (stateName sc)) ])%list,
     inr TypeError_lon).
Proof.
  split; [ reflexivity | ].
  rewrite onLoad_calls. reflexivity.
Qed.

(** With a single landfill the line ends at that landfill, whatever the
    distance function. *)
Lemma route_end_single distance sc l :
  route_end (fst (onLoad distance (mkProps sc [l]) [])) = Some (landfillPoint l).
Proof.
  rewrite onLoad_calls. cbv zeta. unfold findNearest, visit. simpl.
  destruct (PrimFloat.ltb _ infinity); reflexivity.
Qed.

(** C8, as stated, fails: the map was created for a result with Landfill A
    and has loaded; when the component is then rendered with a result whose
    only landfill is Landfill B, the line shown still ends at Landfill A,
    whereas a map created for the new result shows the line to Landfill B. *)
Lemma route_not_recomputed :
  (forall distance : LngLat -> LngLat -> float,
      route_end (shown (run distance [Render Samples.first_props; Load;
                                      Render Samples.second_props] mount))
      = Some (landfillPoint Samples.landfill_A)) /\
  (forall distance : LngLat -> LngLat -> float,
      route_end (shown (run distance [Render Samples.second_props; Load] mount))
      = Some (landfillPoint Samples.landfill_B)) /\
  landfillPoint Samples.landfill_A <> landfillPoint Samples.landfill_B.
Proof.
  split; [ | split ].
  - intros distance.
    change (run distance [Render Samples.first_props; Load;
                          Render Samples.second_props] mount)
      with (run distance [Load; Render Samples.second_props]
                (created Samples.first_props)).
    rewrite run_created. cbn [existsb is_load orb].
    rewrite load_created. apply route_end_single.
  - intros distance.
    change (run distance [Render Samples.second_props; Load] mount)
      with (load distance (created Samples.second_props)).
    rewrite load_created. apply route_end_single.
  - discriminate.
Qed.

(** C8, amended. The nearest landfill and the route are computed once per
    mounted component, from the props of the render that created the map:
    after that render, whatever is rendered later and with whatever props,
    the map shows nothing until it has loaded and, from then on, exactly the
    calls of the listener for those first props. *)
Theorem shown_from_first_render
    (distance : LngLat -> LngLat -> float) (p : MapComponentProps)
    (es : list MapEvent) :
  shown (run distance (Render p :: es) mount)
  = if existsb is_load es then fst (onLoad distance p []) else [].
Proof.
  change (run distance (Render p :: es) mount) with (run distance es (created p)).
  rewrite run_created.
  destruct (existsb is_load es); [ apply load_created | reflexivity ].
Qed.

(** C9, as stated, fails: what a render shows is not a function of its
    props alone.  The same render with the same props (the result whose only
    landfill is Landfill B), followed by the load, shows the line to
    Landfill B on a freshly mounted component and the line to Landfill A on
    a component that carries the map created for the other result, whatever
    the distance function. *)
Lemma render_depends_on_carried_map :
  (forall distance : LngLat -> LngLat -> float,
      route_end (shown (run distance [Render Samples.second_props; Load] mount))
      = Some (landfillPoint Samples.landfill_B)) /\
  (forall distance : LngLat -> LngLat -> float,
      route_end (shown (run distance [Render Samples.second_props; Load]
                            (created Samples.first_props)))
      = Some (landfillPoint Samples.landfill_A)) /\
  landfillPoint Samples.landfill_A <> landfillPoint Samples.landfill_B.
Proof.
  split; [ | split ].
  - intros distance.
    change (run distance [Render Samples.second_props; Load] mount)
      with (load distance (created Samples.second_props)).
    rewrite load_created. apply route_end_single.
  - intros distance.
    rewrite run_created. cbn [existsb is_load orb].
    rewrite load_created. apply route_end_single.
  - discriminate.
Qed.

(** C9, amended. On a freshly mounted component, rendering again with the
    same props leaves the rendered calls identical: however often the
    component is rendered with [p], [n] more times before the map has loaded
    and [m] times after, it ends in the very state one render and the load
    give, with no call repeated.  The component is not a function of its
    props alone, for it carries the map between renders: once the map
    created for [p] has loaded, whatever events [es] follow, the component
    shows what a fresh render of [q] shows exactly when the listener makes
    the same calls for [p] as for [q]. *)
Theorem rerender_matches_fresh_render
    (distance : LngLat -> LngLat -> float) (p q : MapComponentProps)
    (n m : nat) (es : list MapEvent) :
  run distance (Render p :: repeat (Render p) n ++ Load :: repeat (Render p) m) mount
  = run distance [Render p; Load] mount /\
  (shown (run distance (Render p :: Load :: es) mount)
   = shown (run distance [Render q; Load] mount)
   <-> fst (onLoad distance p []) = fst (onLoad distance q [])).
Proof.
  split.
  - change (run distance (Render p :: ?l) mount) with (run distance l (created p)).
    rewrite run_created, existsb_app. cbn [existsb is_load].
    now rewrite orb_true_r.
  - change (run distance (Render p :: Load :: es) mount)
      with (run distance es (load distance (created p))).
    change (run distance [Render q; Load] mount) with (load distance (created q)).
    rewrite run_loaded, !load_created. reflexivity.
Qed.

End MapFacts.

(** ** The page *)

Module PageFacts.

Import Page.

(** The sample session reaches the data panel, with the map props of the
    sample search. *)
Example to_data_loaded_shows_data :
  exists w, exec start Samples.to_data_loaded = Some w /\
            stage (home w) = DataLoaded /\
            option_map mapProps (dataPanel (home w))
            = Some (MapTsx.mkProps Samples.sector5
                                    [Samples.landfill_A; Samples.landfill_B]).
Proof. eexists. split; [ vm_compute; reflexivity | split; reflexivity ]. Qed.

(** [handleInform] with neither sector nor phone number stays on the inform
    form, with a message. *)
Example handleInform_empty :
  exists w, exec start [ClickLogin; SignInResolved Samples.somebody; SubmitInform] = Some w /\
            stage (home w) = Informing /\
            loginError (home w)
            = Some "Please enter either a phone number or select a sector".
Proof. eexists. split; [ vm_compute; reflexivity | split; reflexivity ]. Qed.

(** The two stage flags are set and reset together, so the card is never
    empty while a user is signed in. *)
Lemma step_flags_agree w e w' :
  step w e = Some w' ->
  isInformed (home w) = isInputStage (home w) ->
  isInformed (home w') = isInputStage (home w').
Proof.
  intros Hstep Hinv.
  destruct w as [h si so lo fe].
  destruct e; unfold step in Hstep; cbn [home signingIn signingOut locating fetching] in *;
    repeat match type of Hstep with
           | (if ?c then _ else _) = Some _ => destruct c; [ | try discriminate Hstep ]
           | match ?n with O => _ | S _ => _ end = Some _ => destruct n; [ discriminate Hstep | ]
           | match ?l with [] => _ | _ :: _ => _ end = Some _ => destruct l; [ discriminate Hstep | ]
           | None = Some _ => discriminate Hstep
           end;
    try discriminate Hstep;
    injection Hstep as <-; cbn; try exact Hinv; try reflexivity.
  - (* [handleInform] sets both flags, or neither *)
    unfold handleInform.
    destruct (String.eqb (phoneNo h) "" && String.eqb (sector h) ""); cbn;
      [ exact Hinv | reflexivity ].
  - (* [getUserLocation] touches neither *)
    destruct supported; exact Hinv.
Qed.

Lemma exec_flags_agree es :
  forall w w',
    exec w es = Some w' ->
    isInformed (home w) = isInputStage (home w) ->
    isInformed (home w') = isInputStage (home w').
Proof.
  induction es as [ | e es IH ]; intros w w' Hexec Hinv; simpl in Hexec.
  - now injection Hexec as <-.
  - destruct (step w e) as [w1 | ] eqn:Hstep; [ | discriminate Hexec ].
    eapply IH; [ exact Hexec | ].
    eapply step_flags_agree; eassumption.
Qed.

(** X7. In every state the page can reach, the two stage flags agree, so a
    signed-in user is always shown the inform form or the input form: the
    third branch of the card, which renders nothing, is never taken. *)
Lemma reachable_card w :
  reachable w -> card (home w) <> NoForm.
Proof.
  intros [es Hexec].
  pose proof (exec_flags_agree es start w Hexec eq_refl) as Hflags.
  unfold card. destruct (user (home w)); [ | discriminate ].
  rewrite Hflags. destruct (isInputStage (home w)); discriminate.
Qed.

(** *** One operation at a time *)

Ltac split_step Hstep :=
  repeat match type of Hstep with
         | (if ?c then _ else _) = Some _ =>
             destruct c eqn:?; [ | try discriminate Hstep ]
         | match ?n with O => _ | S _ => _ end = Some _ =>
             destruct n; [ discriminate Hstep | ]
         | match ?l with [] => _ | _ :: _ => _ end = Some _ =>
             destruct l; [ discriminate Hstep | ]
         | None = Some _ => discriminate Hstep
         end;
  try discriminate Hstep;
  repeat match goal with
         | H : (_ && _)%bool = true |- _ => apply andb_prop in H; destruct H
         | H : negb _ = true |- _ => apply negb_true_iff in H
         end.

Lemma step_pending w e w' :
  step w e = Some w' -> pending_inv w -> pending_inv w'.
Proof.
  intros Hstep (Hone & Hbusy & Hdata).
  destruct w as [h si so lo fe].
  cbn [home signingIn signingOut locating fetching] in *.
  destruct e; unfold step in Hstep;
    cbn [home signingIn signingOut locating fetching] in Hstep;
    split_step Hstep; injection Hstep as <-; unfold pending_inv;
    try match goal with
        | Hidle : loading h = false |- _ => destruct (Hbusy Hidle) as [-> ->]
        end;
    try match goal with
        | |- context [handleInform ?x] =>
            unfold handleInform;
            destruct (String.eqb (phoneNo x) "" && String.eqb (sector x) "")
        | |- context [getUserLocation_called ?b _] => destruct b
        end;
    cbn in *;
    (split; [ lia | split; intros ]);
    try discriminate; try congruence; auto;
    try match goal with l : list Payload |- _ => destruct l end;
    cbn in *; try lia; try congruence; try (split; [ reflexivity | lia ]).
Qed.

Lemma exec_pending es :
  forall w w', exec w es = Some w' -> pending_inv w -> pending_inv w'.
Proof.
  induction es as [ | e es IH ]; intros w w' Hexec Hinv; simpl in Hexec.
  - now injection Hexec as <-.
  - destruct (step w e) as [w1 | ] eqn:Hstep; [ | discriminate Hexec ].
    eapply IH; [ exact Hexec | ].
    eapply step_pending; eassumption.
Qed.

Lemma reachable_pending w : reachable w -> pending_inv w.
Proof.
  intros [es Hexec]. apply (exec_pending es start w Hexec).
  unfold pending_inv, start; cbn [home fetching locating List.length].
  split; [ cbn; lia | split; [ intros _; split; reflexivity | intros H; now elim H ] ].
Qed.

(** The page never has two requests pending. *)
Lemma reachable_one_request w :
  reachable w -> List.length (fetching w) <= 1.
Proof. intros Hw. destruct (reachable_pending w Hw) as [Hone _]. lia. Qed.

(** The data in the data panel is never replaced in place: the panel, and
    the map component in it, first goes away.  So the props of a mounted map
    component keep describing the same result, and every new result is shown
    by a newly mounted component. *)
Lemma data_panel_changes_through_none w e w' d :
  reachable w ->
  step w e = Some w' ->
  dataPanel (home w) = Some d ->
  dataPanel (home w') = Some d \/ dataPanel (home w') = None.
Proof.
  intros Hw Hstep Hshown.
  destruct (reachable_pending w Hw) as (_ & _ & Hdata).
  destruct w as [h si so lo fe].
  cbn [home signingIn signingOut locating fetching] in *.
  assert (Hnone : fe = []).
  { destruct fe as [ | p fe ]; [ reflexivity | ].
    unfold dataPanel in Hshown. rewrite Hdata in Hshown by discriminate.
    now destruct (isThereData h). }
  subst fe.
  destruct e; unfold step in Hstep;
    cbn [home signingIn signingOut locating fetching] in Hstep;
    split_step Hstep; injection Hstep as <-;
    cbn [home];
    try match goal with
        | |- context [handleInform ?x] =>
            unfold handleInform;
            destruct (String.eqb (phoneNo x) "" && String.eqb (sector x) "")
        | |- context [getUserLocation_called ?b _] => destruct b
        end;
    unfold dataPanel in *; cbn in *; auto.
  (* a new submission: the data is cleared *)
  right. now destruct (isThereData h).
Qed.

(** *** Sign-out *)

(** C1, as stated, fails: after the sample session has signed out, no user
    is signed in, but the sector, the device location and the route details
    are still those of the session. *)
Lemma logout_keeps_parameters_and_location :
  exists w,
    exec start (Samples.to_data_loaded ++ [ClickLogout; SignOutResolved]) = Some w /\
    stage (home w) = Unauthenticated /\
    sector (home w) = "Sector 5" /\
    userLocation (home w) = mkUserLocation (Some 30.7333%float) (Some 76.7794%float) /\
    routeDetails (home w) = Some (route_details Samples.sector5_response).
Proof. eexists. split; [ vm_compute; reflexivity | repeat split ]. Qed.

(** C1, amended. From every state with a user signed in, the sign-out (the
    click, then its completion by the identity provider, nothing else in
    between) ends with no user signed in, the enrichment data cleared
    ([enrichedData] null, [isThereData] false: no data panel) and the two
    stage flags reset; the sector, the phone number, the three numeric
    parameters, the route details, the device location and the messages are
    what they were, and what was pending is still pending. *)
Theorem logout_clears (w : World) (u : User) :
  user (home w) = Some u ->
  let h := home w in
  let h' := mkHome None (phoneNo h) (sector h) None (routeDetails h) false
                   (loading h) (loginError h) (logoutError h) false false
                   (userLocation h) (locationError h)
                   (collectionEfficiency h) (mileage h) (petrolLeft h) in
  exec w [ClickLogout; SignOutResolved]
  = Some (mkWorld h' (signingIn w) (signingOut w) (locating w) (fetching w)) /\
  stage h' = Unauthenticated /\
  dataPanel h' = None.
Proof.
  intros Huser. cbv zeta. split; [ | split; reflexivity ].
  destruct w as [h si so lo fe]. cbn [home] in Huser.
  cbn [exec step home signingIn signingOut locating fetching].
  rewrite Huser. reflexivity.
Qed.

(** C1, amended, in the sample session: a user is signed in when the data
    is shown, and the sign-out goes as stated. *)
Lemma logout_clears_sample :
  exists w,
    exec start Samples.to_data_loaded = Some w /\
    user (home w) = Some Samples.somebody /\
    exists h',
      exec w [ClickLogout; SignOutResolved] = Some (mkWorld h' 0 0 0 []) /\
      stage h' = Unauthenticated /\
      dataPanel h' = None /\
      sector h' = "Sector 5".
Proof.
  eexists. split; [ vm_compute; reflexivity | ].
  split; [ reflexivity | ].
  eexists. split.
  - refine (proj1 (logout_clears _ Samples.somebody _)). reflexivity.
  - repeat split.
Defined.

(** X14. When the identity provider refuses the sign-out, the user stays
    signed in and the message is attached, but the data and the two stage
    flags were reset before the [await] and stay reset: [enrichedData] is
    null, [isThereData], [isInformed] and [isInputStage] are false, every
    other field is what it was, no data panel is shown and the card shows
    the inform form. *)
Lemma logout_rejected (w : World) (u : User) :
  user (home w) = Some u ->
  let h := home w in
  let h' := mkHome (Some u) (phoneNo h) (sector h) None (routeDetails h) false
                   (loading h) (loginError h)
                   (Some "Failed to log out. Please try again.") false false
                   (userLocation h) (locationError h)
                   (collectionEfficiency h) (mileage h) (petrolLeft h) in
  exec w [ClickLogout; SignOutRejected]
  = Some (mkWorld h' (signingIn w) (signingOut w) (locating w) (fetching w)) /\
  card h' = InformForm /\
  dataPanel h' = None /\
  stage h' = Informing.
Proof.
  intros Huser. cbv zeta.
  destruct w as [h si so lo fe]. cbn [home] in Huser.
  split; [ | repeat split ].
  cbn [exec step home signingIn signingOut locating fetching].
  rewrite Huser. cbn. rewrite <- Huser. reflexivity.
Qed.

(** *** A response that arrives after the sign-out *)

(** C2, as stated, fails: in the sample session the user signs out while
    the request is pending; when the response arrives afterwards, nobody is
    signed in and yet the data of the response is stored, flagged as present
    and shown in the data panel. *)
Lemma response_after_logout_is_shown :
  exists w,
    exec start (Samples.logout_during_fetch
                ++ [FetchResolved Samples.sector5_response]) = Some w /\
    user (home w) = None /\
    enrichedData (home w) = Some Samples.sector5_data /\
    isThereData (home w) = true /\
    dataPanel (home w) = Some Samples.sector5_data.
Proof. eexists. split; [ vm_compute; reflexivity | repeat split ]. Qed.

(** C2, amended. A response is never discarded: whenever a request is
    pending, whatever has happened since it was sent (a sign-out included),
    its 2xx response is accepted and stores the data and the route details,
    sets [isThereData], clears [loading] and leaves every other field, the
    user among them, as it is; the data panel then shows the data. *)
Theorem response_always_applied (w : World) (sent : Payload) (rest : list Payload)
    (r : Response) :
  fetching w = sent :: rest ->
  let h := home w in
  let h' := mkHome (user h) (phoneNo h) (sector h) (Some (data r))
                   (Some (route_details r)) true false (loginError h) (logoutError h)
                   (isInformed h) (isInputStage h) (userLocation h) (locationError h)
                   (collectionEfficiency h) (mileage h) (petrolLeft h) in
  step w (FetchResolved r)
  = Some (mkWorld h' (signingIn w) (signingOut w) (locating w) rest) /\
  dataPanel h' = Some (data r).
Proof.
  intros Hpending. cbv zeta. split; [ | reflexivity ].
  unfold step. rewrite Hpending. reflexivity.
Qed.

(** C2, amended, in the sample session: the request is still pending after
    the sign-out, so its response is applied. *)
Lemma response_always_applied_after_logout :
  exists w,
    exec start Samples.logout_during_fetch = Some w /\
    user (home w) = None /\
    exists h',
      step w (FetchResolved Samples.sector5_response)
      = Some (mkWorld h' (signingIn w) (signingOut w) (locating w) []) /\
      user h' = None /\
      dataPanel h' = Some Samples.sector5_data.
Proof.
  eexists. split; [ vm_compute; reflexivity | ].
  split; [ reflexivity | ].
  eexists. split.
  - refine (proj1 (response_always_applied _ _ [] Samples.sector5_response _)).
    reflexivity.
  - split; reflexivity.
Defined.

(** *** A failed request *)

(** C3, as stated, fails: the sample session shows its data; the user
    submits again and the request fails: the data is gone, no data panel is
    shown, and the page is back on the input stage. *)
Lemma failed_request_discards_data :
  exists w w',
    exec start Samples.to_data_loaded = Some w /\
    dataPanel (home w) = Some Samples.sector5_data /\
    stage (home w) = DataLoaded /\
    exec w [SubmitInput; FetchRejected] = Some w' /\
    enrichedData (home w') = None /\
    dataPanel (home w') = None /\
    stage (home w') = InputtingParameters.
Proof.
  eexists. eexists. split; [ vm_compute; reflexivity | ].
  split; [ reflexivity | ]. split; [ reflexivity | ].
  split; [ vm_compute; reflexivity | repeat split ].
Qed.

(** C3, amended. From every state in which the input form can be
    submitted and nothing is pending, a submission whose request fails ends
    with the message attached and [loading] cleared; the user, the stage
    flags, [isThereData], the parameters, the route details and the location
    are what they were, and the card shows the same form; but the enrichment
    data was cleared when the submission started and stays cleared, so no
    data panel is shown. *)
Theorem failed_request_state (w : World) :
  showsInputForm (home w) = true ->
  loading (home w) = false ->
  fetching w = [] ->
  let h := home w in
  let h' := mkHome (user h) (phoneNo h) (sector h) None (routeDetails h) (isThereData h)
                   false
                   (Some "An error occurred while fetching enriched data. Please try again.")
                   None (isInformed h) (isInputStage h) (userLocation h) (locationError h)
                   (collectionEfficiency h) (mileage h) (petrolLeft h) in
  exec w [SubmitInput; FetchRejected]
  = Some (mkWorld h' (signingIn w) (signingOut w) (locating w) []) /\
  card h' = card h /\
  dataPanel h' = None.
Proof.
  intros Hform Hidle Hnone. cbv zeta.
  destruct w as [h si so lo fe].
  cbn [home signingIn signingOut locating fetching] in *. subst fe.
  split; [ | split ].
  - cbn [exec step home signingIn signingOut locating fetching].
    rewrite Hform, Hidle. reflexivity.
  - reflexivity.
  - unfold dataPanel. cbn. now destruct (isThereData h).
Qed.

(** C3, amended, in the sample session: with the data shown, the input
    form can be submitted again; the failed request leaves no data panel. *)
Lemma failed_request_state_sample :
  exists w,
    exec start Samples.to_data_loaded = Some w /\
    dataPanel (home w) = Some Samples.sector5_data /\
    exists h',
      exec w [SubmitInput; FetchRejected] = Some (mkWorld h' 0 0 0 []) /\
      card h' = InputForm /\
      dataPanel h' = None.
Proof.
  eexists. split; [ vm_compute; reflexivity | ].
  split; [ reflexivity | ].
  eexists. split.
  - refine (proj1 (failed_request_state _ _ _ _)); reflexivity.
  - split; reflexivity.
Defined.

(** *** The location sent with a request *)

(** What decides the location of the payload: it is the stored pair when
    both coordinates are numbers other than [0] and [NaN]. *)
Lemma payloadLocation_truthy (la lo : float) :
  JsNumber.truthy la = true -> JsNumber.truthy lo = true ->
  payloadLocation (mkUserLocation (Some la) (Some lo))
  = Some (mkUserLocation (Some la) (Some lo)).
Proof. intros Hla Hlo. unfold payloadLocation. simpl. now rewrite Hla, Hlo. Qed.

(** With no stored location the payload has none. *)
Lemma payloadLocation_absent :
  payloadLocation (mkUserLocation None None) = None.
Proof. reflexivity. Qed.

(** A stored coordinate equal to [0] counts as absent. *)
Lemma payloadLocation_zero_latitude (lo : float) :
  payloadLocation (mkUserLocation (Some 0%float) (Some lo)) = None.
Proof. reflexivity. Qed.

Lemma payloadLocation_zero_longitude (la : float) :
  payloadLocation (mkUserLocation (Some la) (Some 0%float)) = None.
Proof.
  unfold payloadLocation. simpl.
  now destruct (JsNumber.truthy la).
Qed.

(** C6, on the equator: the sample session has acquired the device
    location (latitude 0, longitude 36.8) and holds it when the user
    submits, but the request is sent without a location. *)
Theorem payload_without_location_on_equator :
  exists w w',
    exec start Samples.on_the_equator = Some w /\
    userLocation (home w) = mkUserLocation (Some 0%float) (Some 36.8%float) /\
    step w SubmitInput = Some w' /\
    map payload_userLocation (fetching w') = [None].
Proof.
  eexists. eexists. split; [ vm_compute; reflexivity | ].
  split; [ reflexivity | ]. split; [ vm_compute; reflexivity | reflexivity ].
Qed.

(** *** A failed location request *)

(** C7, as stated, fails: the sample session holds a device location; the
    user asks for the location again and the request fails: the stored
    location is erased. *)
Lemma location_error_erases_location :
  exists w w',
    exec start Samples.to_data_loaded = Some w /\
    userLocation (home w) = mkUserLocation (Some 30.7333%float) (Some 76.7794%float) /\
    exec w [ClickGetLocation true; PositionError] = Some w' /\
    userLocation (home w') = mkUserLocation None None.
Proof.
  eexists. eexists. split; [ vm_compute; reflexivity | ].
  split; [ reflexivity | ]. split; [ vm_compute; reflexivity | reflexivity ].
Qed.

(** C7, amended. From every state in which the location can be asked for
    and no location call is pending: where geolocation is not supported, the
    request only sets its message and the stored location is untouched;
    where it is supported, a failure reported by the error callback (denied,
    unavailable or timed out, all alike) sets the message "Unable to
    retrieve your location", clears [loading] and erases the stored
    location, every other field being what it was. *)
Theorem location_request_failure (w : World) :
  showsInputForm (home w) = true ->
  loading (home w) = false ->
  locating w = 0 ->
  let h := home w in
  exec w [ClickGetLocation false]
  = Some (withHome w (setLocationError
                        (Some "Geolocation is not supported by your browser") h)) /\
  exec w [ClickGetLocation true; PositionError]
  = Some (withHome w
            (mkHome (user h) (phoneNo h) (sector h) (enrichedData h) (routeDetails h)
                    (isThereData h) false (loginError h) (logoutError h) (isInformed h)
                    (isInputStage h) (mkUserLocation None None)
                    (Some "Unable to retrieve your location")
                    (collectionEfficiency h) (mileage h) (petrolLeft h))).
Proof.
  intros Hform Hidle Hnone. cbv zeta.
  destruct w as [h si so lo fe].
  cbn [home signingIn signingOut locating fetching] in *. subst lo.
  split; cbn [exec step home signingIn signingOut locating fetching];
    rewrite Hform, Hidle; reflexivity.
Qed.

(** C7, amended, in the sample session, which holds a device location:
    the unsupported request keeps it, the failed request erases it. *)
Lemma location_request_failure_sample :
  exists w,
    exec start Samples.to_data_loaded = Some w /\
    exists w1 w2,
      exec w [ClickGetLocation false] = Some w1 /\
      userLocation (home w1)
      = mkUserLocation (Some 30.7333%float) (Some 76.7794%float) /\
      exec w [ClickGetLocation true; PositionError] = Some w2 /\
      userLocation (home w2) = mkUserLocation None None.
Proof.
  eexists. split; [ vm_compute; reflexivity | ].
  eexists. eexists.
  split; [ | split; [ | split ] ].
  - refine (proj1 (location_request_failure _ _ _ _)); reflexivity.
  - reflexivity.
  - refine (proj2 (location_request_failure _ _ _ _)); reflexivity.
  - reflexivity.
Defined.

End PageFacts.

(** ** More on the search and the load listener *)

Module SearchCoverage.

Import MapTsx JsNumberFacts.

Section WithDistance.

Variable distance : LngLat -> LngLat -> float.
Variable sp : LngLat.

(** What the search keeps true of its two variables whatever the
    distances are, [NaN] included: a landfill of [all] is selected, and
    [shortestDistance] is its distance unless nothing was below [Infinity]
    yet and the selection is still the initial one. *)
Lemma fold_visit_selected (all : list Landfill) (l0 : Landfill) (rest : list Landfill) :
  forall acc,
    (forall l, In l rest -> In l all) ->
    (exists r, In r all /\ nearestLandfill acc = Some r /\
               (shortestDistance acc = distance sp (landfillPoint r) \/
                (shortestDistance acc = infinity /\ r = l0))) ->
    exists r, In r all /\
              nearestLandfill (fold_left (visit distance sp) rest acc) = Some r /\
              (shortestDistance (fold_left (visit distance sp) rest acc)
               = distance sp (landfillPoint r) \/
               (shortestDistance (fold_left (visit distance sp) rest acc) = infinity /\
                r = l0)).
Proof.
  induction rest as [ | x rest IH ]; intros acc Hsub Hacc; simpl.
  - exact Hacc.
  - apply IH.
    + intros l Hl. apply Hsub. now right.
    + unfold visit.
      destruct (PrimFloat.ltb (distance sp (landfillPoint x)) (shortestDistance acc)).
      * exists x. split; [ apply Hsub; now left | ]. split; [ reflexivity | now left ].
      * exact Hacc.
Qed.

(** While no distance is below [Infinity], the search changes nothing. *)
Lemma fold_visit_nothing_below (rest : list Landfill) :
  forall first,
    (forall l, In l rest -> PrimFloat.ltb (distance sp (landfillPoint l)) infinity = false) ->
    fold_left (visit distance sp) rest (mkNearest infinity first)
    = mkNearest infinity first.
Proof.
  induction rest as [ | x rest IH ]; intros first Hnone; simpl; [ reflexivity | ].
  unfold visit at 2. cbn [shortestDistance].
  rewrite (Hnone x (or_introl eq_refl)).
  apply IH. intros l Hl. apply Hnone. now right.
Qed.

End WithDistance.

(** On an array whose distances are numbers, the search ends with a landfill
    of the array at its distance, and no landfill of the array is nearer. *)
Lemma findNearest_least
    (distance : LngLat -> LngLat -> float) (sc : StateCoordinates) (ls : list Landfill) :
  ls <> [] ->
  (forall l, In l ls ->
             PrimFloat.is_nan (distance (statePoint sc) (landfillPoint l)) = false) ->
  exists r,
    In r ls /\
    findNearest distance sc ls
    = mkNearest (distance (statePoint sc) (landfillPoint r)) (Some r) /\
    forall l, In l ls ->
              PrimFloat.leb (distance (statePoint sc) (landfillPoint r))
                            (distance (statePoint sc) (landfillPoint l)) = true.
Proof.
  intros Hne Hnum.
  destruct ls as [ | r0 tl ]; [ congruence | clear Hne ].
  assert (Hinit : search_inv distance (statePoint sc) (Some r0) []
                             (mkNearest infinity (Some r0))).
  { split; [ intros l [] | left; split; reflexivity ]. }
  pose proof (SearchFacts.search_inv_fold distance (statePoint sc) (Some r0) (r0 :: tl) []
                (mkNearest infinity (Some r0)) Hnum Hinit) as [Hlow Hsel].
  cbn [app] in Hlow, Hsel.
  unfold findNearest. cbn [nth_error].
  destruct (fold_left (visit distance (statePoint sc)) (r0 :: tl)
                      (mkNearest infinity (Some r0))) as [sd nl].
  cbn [shortestDistance nearestLandfill] in Hlow, Hsel.
  destruct Hsel as [[-> ->] | (before & r & after & Hsplit & -> & -> & _)].
  - assert (Hinf : forall l, In l (r0 :: tl) ->
                             distance (statePoint sc) (landfillPoint l) = infinity).
    { intros l Hl. apply not_below_infinity; auto. }
    exists r0. rewrite (Hinf r0 (or_introl eq_refl)).
    repeat split; [ now left | ].
    intros l Hl. rewrite (Hinf l Hl). reflexivity.
  - assert (Hin : In r (r0 :: tl)).
    { rewrite Hsplit. apply in_or_app. right. now left. }
    exists r. repeat split; auto.
    intros l Hl. apply leb_of_not_ltb; auto.
Qed.

(** What the search keeps true whatever the distances are, [NaN]
    included: no landfill seen is below [shortestDistance]; and either
    nothing seen was below [Infinity] and the two variables are the initial
    ones, or a landfill seen is selected, [shortestDistance] is its distance
    and that distance is below [Infinity]. *)
Lemma fold_visit_lowest
    (distance : LngLat -> LngLat -> float) (sp : LngLat) (first : option Landfill)
    (rest : list Landfill) :
  forall seen acc,
    (forall l, In l seen ->
               PrimFloat.ltb (distance sp (landfillPoint l)) (shortestDistance acc) = false) ->
    ((shortestDistance acc = infinity /\ nearestLandfill acc = first /\
      forall l, In l seen -> PrimFloat.ltb (distance sp (landfillPoint l)) infinity = false) \/
     (exists r, In r seen /\ nearestLandfill acc = Some r /\
                shortestDistance acc = distance sp (landfillPoint r) /\
                PrimFloat.ltb (distance sp (landfillPoint r)) infinity = true)) ->
    let res := fold_left (visit distance sp) rest acc in
    (forall l, In l (seen ++ rest) ->
               PrimFloat.ltb (distance sp (landfillPoint l)) (shortestDistance res) = false) /\
    ((shortestDistance res = infinity /\ nearestLandfill res = first /\
      forall l, In l (seen ++ rest) ->
                PrimFloat.ltb (distance sp (landfillPoint l)) infinity = false) \/
     (exists r, In r (seen ++ rest) /\ nearestLandfill res = Some r /\
                shortestDistance res = distance sp (landfillPoint r) /\
                PrimFloat.ltb (distance sp (landfillPoint r)) infinity = true))%list.
Proof.
  induction rest as [ | x rest IH ]; intros seen acc Hlow Hsel; cbv zeta.
  - rewrite app_nil_r. split; assumption.
  - replace (seen ++ x :: rest)%list with ((seen ++ [x]) ++ rest)%list
      by (rewrite <- app_assoc; reflexivity).
    cbn [fold_left]. apply IH.
    + (* nothing seen is below the new [shortestDistance] *)
      intros l Hl. unfold visit.
      destruct (PrimFloat.ltb (distance sp (landfillPoint x)) (shortestDistance acc))
        eqn:Hlt; cbn [shortestDistance].
      * apply in_app_or in Hl. destruct Hl as [Hl | [<- | []]].
        -- destruct (PrimFloat.ltb (distance sp (landfillPoint l))
                                   (distance sp (landfillPoint x))) eqn:Hlx;
             [ | reflexivity ].
           specialize (Hlow l Hl).
           rewrite (ltb_trans _ _ _ Hlx Hlt) in Hlow. discriminate Hlow.
        -- apply ltb_irrefl.
      * apply in_app_or in Hl. destruct Hl as [Hl | [<- | []]]; auto.
    + unfold visit.
      destruct (PrimFloat.ltb (distance sp (landfillPoint x)) (shortestDistance acc))
        eqn:Hlt; cbn [shortestDistance nearestLandfill].
      * (* [x] is selected: its distance is below [Infinity] *)
        right. exists x. split; [ apply in_or_app; right; now left | ].
        split; [ reflexivity | ]. split; [ reflexivity | ].
        destruct Hsel as [(Hinf & _ & _) | (r & _ & _ & Hd & Hbelow)].
        -- now rewrite Hinf in Hlt.
        -- rewrite Hd in Hlt. exact (ltb_trans _ _ _ Hlt Hbelow).
      * destruct Hsel as [(Hinf & Hfirst & Hnone) | (r & Hr & Hnl & Hd & Hbelow)].
        -- left. split; [ exact Hinf | ]. split; [ exact Hfirst | ].
           intros l Hl. apply in_app_or in Hl. destruct Hl as [Hl | [<- | []]]; auto.
           now rewrite Hinf in Hlt.
        -- right. exists r. split; [ apply in_or_app; now left | auto ].
Qed.

(** X1. Whatever the distance function returns, [NaN] included, the search
    on an array with at least one landfill selects a landfill of the array,
    and no landfill of the array is at a distance below the one it reports.
    If some landfill is at a distance below [Infinity], the distance
    reported is that of the selected landfill and is below [Infinity]; if
    none is, the first landfill is selected and [Infinity] is reported. *)
Theorem findNearest_selects_member
    (distance : LngLat -> LngLat -> float) (sc : StateCoordinates)
    (l0 : Landfill) (ls : list Landfill) :
  exists r,
    In r (l0 :: ls) /\
    nearestLandfill (findNearest distance sc (l0 :: ls)) = Some r /\
    (forall l, In l (l0 :: ls) ->
               PrimFloat.ltb (distance (statePoint sc) (landfillPoint l))
                             (shortestDistance (findNearest distance sc (l0 :: ls)))
               = false) /\
    ((exists l, In l (l0 :: ls) /\
                PrimFloat.ltb (distance (statePoint sc) (landfillPoint l)) infinity = true) ->
     shortestDistance (findNearest distance sc (l0 :: ls))
     = distance (statePoint sc) (landfillPoint r) /\
     PrimFloat.ltb (distance (statePoint sc) (landfillPoint r)) infinity = true) /\
    ((forall l, In l (l0 :: ls) ->
                PrimFloat.ltb (distance (statePoint sc) (landfillPoint l)) infinity = false) ->
     shortestDistance (findNearest distance sc (l0 :: ls)) = infinity /\ r = l0).
Proof.
  unfold findNearest. cbn [nth_error].
  destruct (fold_visit_lowest distance (statePoint sc) (Some l0) (l0 :: ls) []
              (mkNearest infinity (Some l0))) as [Hlow Hsel].
  { intros l []. }
  { left. split; [ reflexivity | ]. split; [ reflexivity | intros l [] ]. }
  cbn [app] in Hlow, Hsel.
  destruct Hsel as [(Hinf & Hfirst & Hnone) | (r & Hr & Hnl & Hd & Hbelow)].
  - exists l0. split; [ now left | ]. split; [ exact Hfirst | ].
    split; [ exact Hlow | ]. split.
    + intros (l & Hl & Hlt). rewrite (Hnone l Hl) in Hlt. discriminate Hlt.
    + intros _. split; [ exact Hinf | reflexivity ].
  - exists r. split; [ exact Hr | ]. split; [ exact Hnl | ].
    split; [ exact Hlow | ]. split.
    + intros _. split; [ exact Hd | exact Hbelow ].
    + intros Hnone. rewrite (Hnone r Hr) in Hbelow. discriminate Hbelow.
Qed.

(** X3. When no landfill is at a distance below [Infinity] (every distance
    is [NaN] or [Infinity]), the search ends where it started: the first
    landfill of the array is selected and the distance reported is
    [Infinity]. *)
Theorem findNearest_nothing_below_infinity
    (distance : LngLat -> LngLat -> float) (sc : StateCoordinates)
    (l0 : Landfill) (ls : list Landfill) :
  (forall l, In l (l0 :: ls) ->
             PrimFloat.ltb (distance (statePoint sc) (landfillPoint l)) infinity = false) ->
  findNearest distance sc (l0 :: ls) = mkNearest infinity (Some l0).
Proof.
  intros Hnone. unfold findNearest. cbn [nth_error].
  now apply fold_visit_nothing_below.
Qed.

(** X3 on the sample landfills, with a distance that is never a number. *)
Lemma findNearest_nothing_below_infinity_sample :
  findNearest Samples.nan_distance Samples.centre
              [Samples.far_north; Samples.near_east; Samples.near_west]
  = mkNearest infinity (Some Samples.far_north).
Proof.
  apply (findNearest_nothing_below_infinity Samples.nan_distance Samples.centre
           Samples.far_north [Samples.near_east; Samples.near_west]).
  intros l _. reflexivity.
Defined.

(** X4. The distance the search reports does not depend on the order of the
    landfills: on two arrangements of the same non-empty array, with
    distances that are numbers, the two reported distances are equal
    ([===]). *)
Theorem findNearest_distance_order_independent
    (distance : LngLat -> LngLat -> float) (sc : StateCoordinates)
    (ls ls' : list Landfill) :
  Permutation ls ls' ->
  ls <> [] ->
  (forall l, In l ls ->
             PrimFloat.is_nan (distance (statePoint sc) (landfillPoint l)) = false) ->
  PrimFloat.eqb (shortestDistance (findNearest distance sc ls))
                (shortestDistance (findNearest distance sc ls')) = true.
Proof.
  intros Hperm Hne Hnum.
  assert (Hne' : ls' <> []).
  { intros ->. apply Permutation_sym, Permutation_nil in Hperm. contradiction. }
  assert (Hnum' : forall l, In l ls' ->
            PrimFloat.is_nan (distance (statePoint sc) (landfillPoint l)) = false).
  { intros l Hl. apply Hnum. apply (Permutation_in l (Permutation_sym Hperm) Hl). }
  destruct (findNearest_least distance sc ls Hne Hnum) as (r & Hr & -> & Hleast).
  destruct (findNearest_least distance sc ls' Hne' Hnum') as (r' & Hr' & -> & Hleast').
  cbn [shortestDistance].
  apply leb_antisym.
  - apply Hleast. apply (Permutation_in r' (Permutation_sym Hperm) Hr').
  - apply Hleast'. apply (Permutation_in r Hperm Hr).
Qed.

(** X4 on the sample landfills, taken in two orders. *)
Lemma findNearest_distance_order_independent_sample :
  PrimFloat.eqb
    (shortestDistance
       (findNearest Samples.flat_distance Samples.centre
                    [Samples.far_north; Samples.near_east; Samples.near_west]))
    (shortestDistance
       (findNearest Samples.flat_distance Samples.centre
                    [Samples.near_west; Samples.far_north; Samples.near_east]))
  = true.
Proof.
  apply (findNearest_distance_order_independent Samples.flat_distance Samples.centre
           [Samples.far_north; Samples.near_east; Samples.near_west]
           [Samples.near_west; Samples.far_north; Samples.near_east]).
  - apply Permutation_sym.
    apply (Permutation_cons_app [Samples.far_north; Samples.near_east] []).
    apply Permutation_refl.
  - discriminate.
  - intros l [<- | [<- | [<- | []]]]; vm_compute; reflexivity.
Defined.

End SearchCoverage.

Module MapCoverage.

Import MapTsx.

Section WithDistance.

Variable distance : LngLat -> LngLat -> float.

(** With at least one landfill the search selects one of them, so the
    listener runs to its end. *)
Lemma onLoad_nonempty (sc : StateCoordinates) (l0 : Landfill) (ls : list Landfill)
      (done : list Instruction) :
  exists nearest,
    In nearest (l0 :: ls) /\
    onLoad distance (mkProps sc (l0 :: ls)) done
    = ((done ++ markers (mkProps sc (l0 :: ls))
             ++ route sc (findNearest distance sc (l0 :: ls)) nearest)%list,
       inl tt).
Proof.
  destruct (SearchCoverage.fold_visit_selected distance (statePoint sc) (l0 :: ls) l0
              (l0 :: ls) (mkNearest infinity (Some l0)))
    as (nearest & Hin & Hsel & _).
  - auto.
  - exists l0. split; [ now left | ]. split; [ reflexivity | right; split; reflexivity ].
  - exists nearest. split; [ exact Hin | ].
    rewrite MapFacts.onLoad_calls. cbv zeta. cbn [stateCoordinates landfills].
    unfold findNearest at 1. cbn [nth_error]. rewrite Hsel. reflexivity.
Qed.

(** Markers are no part of the line: the end of the route is looked for
    after them. *)
Lemma route_end_after_markers (p : MapComponentProps) (rest : list Instruction) :
  route_end (markers p ++ rest) = route_end rest.
Proof.
  unfold markers. cbn [app route_end]. rewrite <- app_assoc.
  induction (landfills p) as [ | l ls IH ]; cbn [map app route_end]; auto.
Qed.

End WithDistance.

(** X2. For props with valid coordinates and at least one landfill, the
    load listener of a new map runs to its end, whatever the distance
    function returns: it adds the control, one marker per landfill in array
    order, the marker of the state centre, and then the line from the state
    centre to a landfill of the array, its layer and the popup at the
    midpoint: five calls more than there are landfills. *)
Theorem onLoad_with_landfills
    (distance : LngLat -> LngLat -> float) (sc : StateCoordinates)
    (l0 : Landfill) (ls : list Landfill) :
  valid_props (mkProps sc (l0 :: ls)) = true ->
  exists nearest,
    In nearest (l0 :: ls) /\
    onLoad distance (mkProps sc (l0 :: ls)) []
    = ((markers (mkProps sc (l0 :: ls))
        ++ route sc (findNearest distance sc (l0 :: ls)) nearest)%list,
       inl tt) /\
    List.length (fst (onLoad distance (mkProps sc (l0 :: ls)) []))
    = List.length (l0 :: ls) + 5.
Proof.
  intros _.
  destruct (onLoad_nonempty distance sc l0 ls []) as (nearest & Hin & Hcalls).
  cbn [app] in Hcalls.
  exists nearest. split; [ exact Hin | ]. split; [ exact Hcalls | ].
  rewrite Hcalls. cbn [fst]. unfold markers, route.
  rewrite !length_app. cbn [List.length landfills]. rewrite length_app, length_map.
  cbn [List.length]. lia.
Qed.

(** X2 on the sample result. *)
Lemma onLoad_with_landfills_sample :
  exists nearest,
    In nearest [Samples.landfill_A; Samples.landfill_B] /\
    onLoad Samples.flat_distance
           (mkProps Samples.sector5 [Samples.landfill_A; Samples.landfill_B]) []
    = ((markers (mkProps Samples.sector5 [Samples.landfill_A; Samples.landfill_B])
        ++ route Samples.sector5
                 (findNearest Samples.flat_distance Samples.sector5
                              [Samples.landfill_A; Samples.landfill_B]) nearest)%list,
       inl tt) /\
    List.length
      (fst (onLoad Samples.flat_distance
                   (mkProps Samples.sector5 [Samples.landfill_A; Samples.landfill_B]) []))
    = List.length [Samples.landfill_A; Samples.landfill_B] + 5.
Proof.
  apply (onLoad_with_landfills Samples.flat_distance Samples.sector5
           Samples.landfill_A [Samples.landfill_B]).
  vm_compute. reflexivity.
Defined.

(** X5. The map the page puts in the data panel: for enrichment data with
    at least one landfill and valid coordinates, the component mounted with
    the props the page derives from the data is centred on the data's state
    centre and, once loaded, shows a line that ends at one of the data's
    landfills; no exception ended the listener. *)
Theorem data_panel_map_route
    (distance : LngLat -> LngLat -> float) (d : Page.EnrichedData)
    (l0 : Page.LandfillData) (ls : list Page.LandfillData) :
  Page.landfills (Page.coordinates d) = l0 :: ls ->
  valid_props (Page.mapProps d) = true ->
  exists (m : MapboxMap) (n : Page.LandfillData),
    map_current (run distance [Render (Page.mapProps d); Load] mount) = Some m /\
    center m = (Page.state_lon (Page.coordinates d), Page.state_lat (Page.coordinates d)) /\
    failure m = None /\
    In n (Page.landfills (Page.coordinates d)) /\
    route_end (calls m) = Some (Page.lon n, Page.lat n).
Proof.
  intros Hls _.
  change (run distance [Render (Page.mapProps d); Load] mount)
    with (load distance (created (Page.mapProps d))).
  rewrite MapFacts.load_created_eq.
  unfold Page.mapProps. rewrite Hls. cbn [map].
  set (sc := mkStateCoordinates _ _ _).
  set (m0 := mkLandfill (Page.lat l0) (Page.lon l0) (Page.name l0)).
  set (ms := map _ ls).
  destruct (onLoad_nonempty distance sc m0 ms []) as (nearest & Hin & Hcalls).
  assert (Hn : exists n, In n (l0 :: ls) /\
                         landfillPoint nearest = (Page.lon n, Page.lat n)).
  { destruct Hin as [<- | Hin].
    - exists l0. split; [ now left | reflexivity ].
    - unfold ms in Hin. apply in_map_iff in Hin. destruct Hin as (n & <- & Hn).
      exists n. split; [ now right | reflexivity ]. }
  destruct Hn as (n & Hn & Hpoint).
  eexists. exists n. split; [ reflexivity | ].
  cbn [center failure calls stateCoordinates].
  rewrite Hcalls. cbn [fst snd app].
  split; [ reflexivity | ]. split; [ reflexivity | ]. split; [ exact Hn | ].
  rewrite route_end_after_markers. cbn [route route_end]. now rewrite Hpoint.
Qed.

(** X5 on the sample data. *)
Lemma data_panel_map_route_sample :
  exists (m : MapboxMap) (n : Page.LandfillData),
    map_current (run Samples.flat_distance
                     [Render (Page.mapProps Samples.sector5_data); Load] mount) = Some m /\
    center m = (Page.state_lon (Page.coordinates Samples.sector5_data),
                Page.state_lat (Page.coordinates Samples.sector5_data)) /\
    failure m = None /\
    In n (Page.landfills (Page.coordinates Samples.sector5_data)) /\
    route_end (calls m) = Some (Page.lon n, Page.lat n).
Proof.
  refine (data_panel_map_route Samples.flat_distance Samples.sector5_data _ _ _ _).
  - reflexivity.
  - vm_compute. reflexivity.
Defined.

End MapCoverage.

(** ** More on the page *)

Module PageCoverage.

Import Page PageFacts.

(** *** The [loading] flag *)

(** [loading] is set only while something is pending. *)
Lemma step_loading_pending w e w' :
  step w e = Some w' ->
  pending_inv w ->
  (loading (home w) = true -> List.length (fetching w) + locating w = 1) ->
  (loading (home w') = true -> List.length (fetching w') + locating w' = 1).
Proof.
  intros Hstep (Hone & Hbusy & _) Hset.
  destruct w as [h si so lo fe].
  cbn [home signingIn signingOut locating fetching] in *.
  destruct e; unfold step in Hstep;
    cbn [home signingIn signingOut locating fetching] in Hstep;
    split_step Hstep; injection Hstep as <-;
    try match goal with
        | Hidle : loading h = false |- _ => destruct (Hbusy Hidle) as [-> ->]
        end;
    try match goal with
        | |- context [handleInform ?x] =>
            unfold handleInform;
            destruct (String.eqb (phoneNo x) "" && String.eqb (sector x) "")
        | |- context [getUserLocation_called ?b _] => destruct b
        end;
    cbn in *; intros; try discriminate; try congruence; auto;
    try match goal with l : list Payload |- _ => destruct l end;
    cbn in *; try lia; try congruence.
Qed.

Lemma exec_loading_pending es :
  forall w w',
    exec w es = Some w' ->
    pending_inv w ->
    (loading (home w) = true -> List.length (fetching w) + locating w = 1) ->
    (loading (home w') = true -> List.length (fetching w') + locating w' = 1).
Proof.
  induction es as [ | e es IH ]; intros w w' Hexec Hinv Hset; simpl in Hexec.
  - now injection Hexec as <-.
  - destruct (step w e) as [w1 | ] eqn:Hstep; [ | discriminate Hexec ].
    eapply IH; [ exact Hexec | | ].
    + eapply step_pending; eassumption.
    + eapply step_loading_pending; eassumption.
Qed.

(** [loading] is set exactly while an operation is pending, and at most one
    is. *)
Lemma reachable_loading_pending (w : World) :
  reachable w ->
  List.length (fetching w) + locating w = if loading (home w) then 1 else 0.
Proof.
  intros Hw.
  destruct (reachable_pending w Hw) as (_ & Hidle & _).
  destruct Hw as [es Hexec].
  destruct (loading (home w)) eqn:Hloading.
  - apply (exec_loading_pending es start w Hexec); [ | discriminate | exact Hloading ].
    apply reachable_pending. exists []. reflexivity.
  - destruct (Hidle eq_refl) as [-> ->]. reflexivity.
Qed.

(** X6. After every execution from the initial state in which "Go Back" is
    not clicked, [loading] is set exactly while an operation is pending, and
    at most one is: the number of pending requests and location calls
    together is 1 when [loading] is set and 0 when it is not.  So the
    disabled buttons keep a second request from being sent, and they come
    back as soon as the pending operation settles. *)
Theorem loading_iff_one_pending (es : list Event) (w : World) :
  exec start es = Some w ->
  existsb is_go_back es = false ->
  List.length (fetching w) + locating w = if loading (home w) then 1 else 0.
Proof.
  intros Hexec _. apply reachable_loading_pending. now exists es.
Qed.

(** X6 in the sample session, while its request is pending. *)
Lemma loading_iff_one_pending_sample :
  exists w,
    exec start (Samples.to_input_form ++ [SubmitInput]) = Some w /\
    loading (home w) = true /\
    List.length (fetching w) + locating w = if loading (home w) then 1 else 0.
Proof.
  eexists. split; [ vm_compute; reflexivity | ].
  split; [ reflexivity | ].
  apply (loading_iff_one_pending (Samples.to_input_form ++ [SubmitInput])%list);
    vm_compute; reflexivity.
Defined.

(** X7 in the sample session, with its data shown. *)
Lemma reachable_card_sample :
  exists w,
    exec start Samples.to_data_loaded = Some w /\
    card (home w) <> NoForm.
Proof.
  eexists. split; [ vm_compute; reflexivity | ].
  apply reachable_card.
  exists Samples.to_data_loaded. vm_compute. reflexivity.
Defined.

(** X8. As long as "Go Back" is not clicked, the data in the data panel is
    never replaced in place: after any such execution, an event leaves the
    data shown as it is or takes the panel away.  The panel, and the map
    component in it, goes away before other data can be shown, so every new
    result is shown by a newly mounted map component. *)
Theorem data_panel_never_replaced (es : list Event) (w : World) (e : Event)
    (w' : World) (d : EnrichedData) :
  exec start es = Some w ->
  existsb is_go_back (es ++ [e]) = false ->
  step w e = Some w' ->
  dataPanel (home w) = Some d ->
  dataPanel (home w') = Some d \/ dataPanel (home w') = None.
Proof.
  intros Hexec _ Hstep Hshown.
  apply (data_panel_changes_through_none w e w' d); auto. now exists es.
Qed.

(** X8 in the sample session: a new submission takes the data panel away. *)
Lemma data_panel_never_replaced_sample :
  exists w w',
    exec start Samples.to_data_loaded = Some w /\
    step w SubmitInput = Some w' /\
    dataPanel (home w) = Some Samples.sector5_data /\
    (dataPanel (home w') = Some Samples.sector5_data \/ dataPanel (home w') = None).
Proof.
  eexists. eexists. split; [ vm_compute; reflexivity | ].
  split; [ vm_compute; reflexivity | ].
  split; [ reflexivity | ].
  refine (data_panel_never_replaced Samples.to_data_loaded _ SubmitInput _
            Samples.sector5_data _ _ _ _).
  - vm_compute. reflexivity.
  - reflexivity.
  - vm_compute. reflexivity.
  - reflexivity.
Defined.

(** X14 in the sample session, with its data shown: the refused sign-out
    leaves the user signed in, on the inform form, without the data. *)
Lemma logout_rejected_sample :
  exists w h',
    exec start Samples.to_data_loaded = Some w /\
    dataPanel (home w) = Some Samples.sector5_data /\
    exec w [ClickLogout; SignOutRejected] = Some (mkWorld h' 0 0 0 []) /\
    user h' = Some Samples.somebody /\
    enrichedData h' = None /\
    card h' = InformForm /\
    logoutError h' = Some "Failed to log out. Please try again.".
Proof.
  eexists. eexists. split; [ vm_compute; reflexivity | ].
  split; [ reflexivity | ]. split.
  - refine (proj1 (logout_rejected _ Samples.somebody _)). reflexivity.
  - repeat split.
Defined.

(** *** The inform step *)

Lemma showsInformForm_inv (h : Home) :
  showsInformForm h = true -> exists u, user h = Some u /\ isInformed h = false.
Proof.
  unfold showsInformForm, card.
  destruct (user h) as [u | ]; [ | discriminate ].
  destruct (isInformed h); cbn; [ destruct (isInputStage h); discriminate | ].
  intros _. now exists u.
Qed.

Lemma showsInputForm_inv (h : Home) :
  showsInputForm h = true ->
  exists u, user h = Some u /\ isInformed h = true /\ isInputStage h = true.
Proof.
  unfold showsInputForm, card.
  destruct (user h) as [u | ]; [ | discriminate ].
  destruct (isInformed h); cbn; [ | discriminate ].
  destruct (isInputStage h); [ | discriminate ].
  intros _. now exists u.
Qed.

(** X9. Submitting the inform form: with neither a phone number nor a
    sector the page stays on the inform form with its message; with either
    of them it moves to the input form with no message.  [loading] is clear
    again in both cases and the two entries are what they were. *)
Theorem inform_requires_sector_or_phone (w : World) :
  showsInformForm (home w) = true ->
  loading (home w) = false ->
  exists w',
    step w SubmitInform = Some w' /\
    loading (home w') = false /\
    phoneNo (home w') = phoneNo (home w) /\
    sector (home w') = sector (home w) /\
    (phoneNo (home w) = "" /\ sector (home w) = "" ->
     card (home w') = InformForm /\
     loginError (home w')
     = Some "Please enter either a phone number or select a sector") /\
    (phoneNo (home w) <> "" \/ sector (home w) <> "" ->
     card (home w') = InputForm /\ loginError (home w') = None).
Proof.
  intros Hform Hidle.
  destruct (showsInformForm_inv _ Hform) as (u & Huser & Hstage).
  destruct w as [h si so lo fe]. cbn [home] in *.
  eexists. split.
  { unfold step. cbn [home]. rewrite Hform, Hidle. reflexivity. }
  cbn [home withHome]. unfold handleInform.
  destruct (String.eqb_spec (phoneNo h) "") as [Hp | Hp];
    destruct (String.eqb_spec (sector h) "") as [Hs | Hs];
    cbn; unfold card; cbn; rewrite Huser, ?Hstage; cbn;
    repeat split; try reflexivity; try tauto; intros [? ?]; contradiction.
Qed.

(** X9 at the start of the sample session, a sector chosen. *)
Lemma inform_requires_sector_or_phone_sample :
  exists w w',
    exec start [ClickLogin; SignInResolved Samples.somebody; ChangeSector "Sector 5"]
    = Some w /\
    step w SubmitInform = Some w' /\
    card (home w') = InputForm.
Proof.
  eexists.
  destruct (inform_requires_sector_or_phone
              (mkWorld (mkHome (Some Samples.somebody) "" "Sector 5" None None false false
                               None None false false (mkUserLocation None None) None
                               85%float 10%float 50%float) 0 0 0 [])
              eq_refl eq_refl) as (w' & Hstep & _ & _ & _ & _ & Hgo).
  exists w'. split; [ vm_compute; reflexivity | ].
  split; [ exact Hstep | ].
  apply Hgo. right. discriminate.
Defined.

(** X13. A phone number alone passes the inform step, and the request then
    sent carries an empty sector. *)
Theorem phone_only_sends_empty_sector (w : World) :
  showsInformForm (home w) = true ->
  loading (home w) = false ->
  fetching w = [] ->
  sector (home w) = "" ->
  phoneNo (home w) <> "" ->
  exists w',
    exec w [SubmitInform; SubmitInput] = Some w' /\
    map payload_sector (fetching w') = [""].
Proof.
  intros Hform Hidle Hnone Hsector Hphone.
  destruct (showsInformForm_inv _ Hform) as (u & Huser & Hstage).
  destruct w as [h si so lo fe]. cbn [home fetching] in *. subst fe.
  assert (Hinform : handleInform h
                    = h |> setLoading true |> setLoginError None |> setLogoutError None
                        |> setIsInformed true |> setIsInputStage true |> setLoading false).
  { unfold handleInform.
    destruct (String.eqb_spec (phoneNo h) "") as [Hp | Hp]; [ contradiction | reflexivity ]. }
  eexists. split.
  - cbn [exec step home]. rewrite Hform, Hidle. cbn [andb negb withHome].
    rewrite Hinform. unfold showsInputForm, card. cbn. rewrite Huser. cbn.
    reflexivity.
  - cbn. now rewrite Hsector.
Qed.

(** X13 in a session that gives only a phone number. *)
Lemma phone_only_sends_empty_sector_sample :
  exists w w',
    exec start [ClickLogin; SignInResolved Samples.somebody; ChangePhoneNo "9876543210"]
    = Some w /\
    exec w [SubmitInform; SubmitInput] = Some w' /\
    map payload_sector (fetching w') = [""].
Proof.
  eexists.
  destruct (phone_only_sends_empty_sector
              (mkWorld (mkHome (Some Samples.somebody) "9876543210" "" None None false false
                               None None false false (mkUserLocation None None) None
                               85%float 10%float 50%float) 0 0 0 [])
              eq_refl eq_refl eq_refl eq_refl) as (w' & Hexec & Hsent).
  { discriminate. }
  exists w'. split; [ vm_compute; reflexivity | ].
  split; [ exact Hexec | exact Hsent ].
Defined.

(** *** The input form *)

(** X10. A submission that succeeds: from a state in which the input form
    can be submitted and no request is pending, the request sent is built
    from the current entries, and when its 2xx response arrives the data and
    the route details of the response are stored and shown, [loading] and
    both messages are clear, and the page is on the data stage with the
    input form still in the card. *)
Theorem submit_success (w : World) (r : Response) :
  showsInputForm (home w) = true ->
  loading (home w) = false ->
  fetching w = [] ->
  let h := home w in
  let h' := mkHome (user h) (phoneNo h) (sector h) (Some (data r))
                   (Some (route_details r)) true false None None
                   (isInformed h) (isInputStage h) (userLocation h) (locationError h)
                   (collectionEfficiency h) (mileage h) (petrolLeft h) in
  (exists w1, step w SubmitInput = Some w1 /\ fetching w1 = [payload h]) /\
  exec w [SubmitInput; FetchResolved r]
  = Some (mkWorld h' (signingIn w) (signingOut w) (locating w) []) /\
  stage h' = DataLoaded /\
  card h' = InputForm /\
  dataPanel h' = Some (data r).
Proof.
  intros Hform Hidle Hnone. cbv zeta.
  destruct (showsInputForm_inv _ Hform) as (u & Huser & Hinformed & Hinput).
  destruct w as [h si so lo fe]. cbn [home signingIn signingOut locating fetching] in *.
  subst fe.
  split; [ | split; [ | split; [ | split ] ] ].
  - eexists. split.
    + unfold step. cbn [home]. rewrite Hform, Hidle. reflexivity.
    + reflexivity.
  - cbn [exec step home signingIn signingOut locating fetching].
    rewrite Hform, Hidle. reflexivity.
  - unfold stage. cbn. now rewrite Huser.
  - unfold card. cbn. now rewrite Huser, Hinformed, Hinput.
  - reflexivity.
Qed.

(** X10 in the sample session. *)
Lemma submit_success_sample :
  exists w h',
    exec start Samples.to_input_form = Some w /\
    exec w [SubmitInput; FetchResolved Samples.sector5_response]
    = Some (mkWorld h' 0 0 0 []) /\
    stage h' = DataLoaded /\
    dataPanel h' = Some Samples.sector5_data.
Proof.
  eexists. eexists. split; [ vm_compute; reflexivity | ].
  split.
  - refine (proj1 (proj2 (submit_success _ Samples.sector5_response _ _ _)));
      reflexivity.
  - split; reflexivity.
Defined.

(** X11. A location acquired and then submitted: from a state in which the
    input form is shown and nothing is pending, when the device answers
    with coordinates that are both numbers other than zero, the location
    message is cleared and the request sent next carries exactly those
    coordinates. *)
Theorem located_then_submitted (w : World) (la lo : float) :
  showsInputForm (home w) = true ->
  loading (home w) = false ->
  locating w = 0 ->
  fetching w = [] ->
  JsNumber.truthy la = true ->
  JsNumber.truthy lo = true ->
  exists w',
    exec w [ClickGetLocation true; PositionFound la lo; SubmitInput] = Some w' /\
    locationError (home w') = None /\
    map payload_userLocation (fetching w')
    = [Some (mkUserLocation (Some la) (Some lo))].
Proof.
  intros Hform Hidle Hloc Hnone Hla Hlo.
  destruct (showsInputForm_inv _ Hform) as (u & Huser & Hinformed & Hinput).
  destruct w as [h si so l fe]. cbn [home signingIn signingOut locating fetching] in *.
  subst l fe.
  eexists. split.
  - cbn [exec step home signingIn signingOut locating fetching].
    rewrite Hform, Hidle. cbn [andb negb getUserLocation_called].
    unfold showsInputForm, card. cbn. rewrite Huser, Hinformed, Hinput. cbn.
    reflexivity.
  - cbn. unfold payloadLocation. cbn. rewrite Hla, Hlo. split; reflexivity.
Qed.

(** X11 in the sample session. *)
Lemma located_then_submitted_sample :
  exists w w',
    exec start Samples.to_input_form = Some w /\
    exec w [ClickGetLocation true; PositionFound 30.7333%float 76.7794%float; SubmitInput]
    = Some w' /\
    locationError (home w') = None /\
    map payload_userLocation (fetching w')
    = [Some (mkUserLocation (Some 30.7333%float) (Some 76.7794%float))].
Proof.
  eexists.
  destruct (located_then_submitted
              (mkWorld (mkHome (Some Samples.somebody) "" "Sector 5" None None false false
                               None None true true (mkUserLocation None None) None
                               85%float 10%float 50%float) 0 0 0 [])
              30.7333%float 76.7794%float
              eq_refl eq_refl eq_refl eq_refl eq_refl eq_refl) as (w' & Hexec & Hrest).
  exists w'. split; [ vm_compute; reflexivity | ].
  split; [ exact Hexec | exact Hrest ].
Defined.

(** X12. Going back and informing again is a round trip of the two
    handlers: on a state of the input stage with nothing loading, no message
    shown and a sector or a phone number entered, the [onClick] of "Go Back"
    keeps every entry, the location and the data panel and shows a signed-in
    user the inform form, and [handleInform] then gives back the very state
    the page was in. *)
Theorem go_back_then_inform (h : Home) :
  isInformed h = true ->
  isInputStage h = true ->
  loading h = false ->
  loginError h = None ->
  logoutError h = None ->
  phoneNo h <> "" \/ sector h <> "" ->
  handleInform (goBack h) = h /\
  dataPanel (goBack h) = dataPanel h /\
  (forall u, user h = Some u -> card (goBack h) = InformForm).
Proof.
  intros Hinformed Hinput Hidle Hlogin Hlogout Hentry.
  split; [ | split ].
  - unfold handleInform.
    change (phoneNo (goBack h)) with (phoneNo h).
    change (sector (goBack h)) with (sector h).
    assert (Hnot : String.eqb (phoneNo h) "" && String.eqb (sector h) "" = false).
    { destruct (String.eqb_spec (phoneNo h) ""), (String.eqb_spec (sector h) "");
        cbn; try reflexivity. tauto. }
    rewrite Hnot.
    destruct h; cbn in *. subst. reflexivity.
  - reflexivity.
  - intros u Huser. unfold card. cbn. now rewrite Huser.
Qed.

(** X12 on the input form of the sample session. *)
Lemma go_back_then_inform_sample :
  exists w,
    exec start Samples.to_input_form = Some w /\
    handleInform (goBack (home w)) = home w /\
    card (goBack (home w)) = InformForm.
Proof.
  eexists. split; [ vm_compute; reflexivity | ].
  destruct (go_back_then_inform
              (mkHome (Some Samples.somebody) "" "Sector 5" None None false false
                      None None true true (mkUserLocation None None) None
                      85%float 10%float 50%float)
              eq_refl eq_refl eq_refl eq_refl eq_refl)
    as (Hround & _ & Hcard).
  { right. discriminate. }
  split; [ exact Hround | exact (Hcard Samples.somebody eq_refl) ].
Defined.

(** *** Signing in *)

(** X15. A failed sign-in attaches its message, and the message outlives a
    later successful sign-in: nothing clears it until a form is submitted. *)
Theorem login_error_survives_login (w : World) (u : User) :
  user (home w) = None ->
  exists w',
    exec w [ClickLogin; SignInRejected; ClickLogin; SignInResolved u] = Some w' /\
    user (home w') = Some u /\
    loginError (home w') = Some "Failed to log in. Please try again.".
Proof.
  intros Huser. destruct w as [h si so lo fe]. destruct h.
  cbn [home user] in Huser. subst.
  eexists. split; [ reflexivity | split; reflexivity ].
Qed.

(** X15 from the initial state. *)
Lemma login_error_survives_login_sample :
  exists w',
    exec start [ClickLogin; SignInRejected; ClickLogin; SignInResolved Samples.somebody]
    = Some w' /\
    user (home w') = Some Samples.somebody /\
    loginError (home w') = Some "Failed to log in. Please try again.".
Proof.
  exact (login_error_survives_login start Samples.somebody eq_refl).
Defined.

End PageCoverage.

(** ** The page of [src/frontend/src/app/page.tsx] *)

Module PageTsxFacts.

Import PageTsx.

Ltac split_step Hstep :=
  repeat match type of Hstep with
         | (if ?c then _ else _) = Some _ =>
             destruct c eqn:?; [ | try discriminate Hstep ]
         | match ?n with O => _ | S _ => _ end = Some _ =>
             destruct n; [ discriminate Hstep | ]
         | match ?l with [] => _ | _ :: _ => _ end = Some _ =>
             destruct l; [ discriminate Hstep | ]
         | None = Some _ => discriminate Hstep
         end;
  try discriminate Hstep;
  repeat match goal with
         | H : (_ && _)%bool = true |- _ => apply andb_prop in H; destruct H
         | H : negb _ = true |- _ => apply negb_true_iff in H
         end.

(** One step keeps the number of pending requests in line with [loading]. *)
Lemma step_loading w e w' :
  step w e = Some w' ->
  List.length (fetching w) = (if loading (home w) then 1 else 0) ->
  List.length (fetching w') = (if loading (home w') then 1 else 0).
Proof.
  intros Hstep Hinv.
  destruct w as [h si so fe]. cbn [home signingIn signingOut fetching] in *.
  destruct e; unfold step in Hstep; cbn [home signingIn signingOut fetching] in Hstep;
    split_step Hstep; injection Hstep as <-; cbn in *; auto.
  - (* a submission: nothing was pending *)
    match goal with Hidle : loading h = false |- _ => rewrite Hidle in Hinv end.
    destruct fe; [ reflexivity | discriminate Hinv ].
  - (* a response: it was the only request *)
    destruct (loading h); [ | discriminate Hinv ]. now injection Hinv.
  - destruct (loading h); [ | discriminate Hinv ]. now injection Hinv.
Qed.

Lemma exec_loading es :
  forall w w',
    exec w es = Some w' ->
    List.length (fetching w) = (if loading (home w) then 1 else 0) ->
    List.length (fetching w') = (if loading (home w') then 1 else 0).
Proof.
  induction es as [ | e es IH ]; intros w w' Hexec Hinv; simpl in Hexec.
  - now injection Hexec as <-.
  - destruct (step w e) as [w1 | ] eqn:Hstep; [ | discriminate Hexec ].
    eapply IH; [ exact Hexec | ]. eapply step_loading; eassumption.
Qed.

(** X16. In every state this page can reach, a request is pending exactly
    while [loading] is set, and never more than one: the submit button,
    disabled while [loading], is what keeps a second request from being
    sent, and signing out or in does not touch it. *)
Theorem reachable_one_request_at_a_time (w : World) :
  reachable w ->
  List.length (fetching w) = if loading (home w) then 1 else 0.
Proof.
  intros [es Hexec]. apply (exec_loading es start w Hexec). reflexivity.
Qed.

(** X16 in the sample session, its request pending and the user signed
    out. *)
Lemma reachable_one_request_at_a_time_sample :
  exists w,
    exec start Samples.v1_logout_during_fetch = Some w /\
    user (home w) = None /\
    loading (home w) = true /\
    List.length (fetching w) = if loading (home w) then 1 else 0.
Proof.
  eexists. split; [ vm_compute; reflexivity | ].
  split; [ reflexivity | ]. split; [ reflexivity | ].
  apply reachable_one_request_at_a_time.
  exists Samples.v1_logout_during_fetch. vm_compute. reflexivity.
Defined.

(** X17. A submission that succeeds: for a signed-in user with nothing
    loading and no request pending, the request sent carries the state and
    the country as entered, and when its 2xx response arrives the body is
    stored and shown in the data panel, [loading] and both messages are
    clear, and the two entries are what they were. *)
Theorem v1_submit_success (w : World) (u : Page.User) (d : EnrichedData) :
  user (home w) = Some u ->
  loading (home w) = false ->
  fetching w = [] ->
  let h := home w in
  let h' := mkHome (Some u) (state h) (country h) (Some d) true false None None in
  (exists w1, step w Submit = Some w1 /\
              fetching w1 = [mkPayload (state h) (country h)]) /\
  exec w [Submit; FetchResolved d]
  = Some (mkWorld h' (signingIn w) (signingOut w) []) /\
  dataPanel h' = Some d.
Proof.
  intros Huser Hidle Hnone. cbv zeta.
  destruct w as [h si so fe]. cbn [home signingIn signingOut fetching] in *. subst fe.
  split; [ | split; [ | reflexivity ] ].
  - eexists. split.
    + unfold step. cbn [home]. rewrite Huser, Hidle. reflexivity.
    + reflexivity.
  - cbn [exec step home signingIn signingOut fetching].
    rewrite Huser, Hidle. cbn. rewrite <- Huser. reflexivity.
Qed.

(** X17 in the sample session. *)
Lemma v1_submit_success_sample :
  exists w h',
    exec start Samples.v1_to_form = Some w /\
    exec w [Submit; FetchResolved Samples.punjab_data] = Some (mkWorld h' 0 0 []) /\
    dataPanel h' = Some Samples.punjab_data.
Proof.
  eexists. eexists. split; [ vm_compute; reflexivity | ].
  split.
  - refine (proj1 (proj2 (v1_submit_success _ Samples.somebody Samples.punjab_data
                                               _ _ _))); reflexivity.
  - reflexivity.
Defined.

(** X18. A submission that fails: whatever was shown before, the request
    that is rejected (or answered outside 2xx) leaves the message attached,
    [loading] clear and no enrichment data: the data cleared when the
    submission started is not restored, so no data panel is shown; the user
    and the two entries are what they were. *)
Theorem v1_submit_failure (w : World) (u : Page.User) :
  user (home w) = Some u ->
  loading (home w) = false ->
  fetching w = [] ->
  let h := home w in
  let h' := mkHome (Some u) (state h) (country h) None (isThereData h) false
                   (Some "An error occurred while fetching enriched data. Please try again.")
                   None in
  exec w [Submit; FetchRejected]
  = Some (mkWorld h' (signingIn w) (signingOut w) []) /\
  dataPanel h' = None.
Proof.
  intros Huser Hidle Hnone. cbv zeta.
  destruct w as [h si so fe]. cbn [home signingIn signingOut fetching] in *. subst fe.
  split.
  - cbn [exec step home signingIn signingOut fetching].
    rewrite Huser, Hidle. cbn. rewrite <- Huser. reflexivity.
  - unfold dataPanel. cbn. now destruct (isThereData h).
Qed.

(** X18 in the sample session, with data shown before. *)
Lemma v1_submit_failure_sample :
  exists w h',
    exec start (Samples.v1_to_form ++ [Submit; FetchResolved Samples.punjab_data])
    = Some w /\
    dataPanel (home w) = Some Samples.punjab_data /\
    exec w [Submit; FetchRejected] = Some (mkWorld h' 0 0 []) /\
    dataPanel h' = None.
Proof.
  eexists. eexists. split; [ vm_compute; reflexivity | ].
  split; [ reflexivity | ]. split.
  - refine (proj1 (v1_submit_failure _ Samples.somebody _ _ _)); reflexivity.
  - reflexivity.
Defined.

(** X19. Signing out while a request is pending: the sign-out clears the
    data and the user but not the two entries, and does not cancel the
    request; when the response arrives after the sign-out has completed, its
    body is stored and shown in the data panel although nobody is signed
    in. *)
Theorem v1_response_after_logout (w : World) (u : Page.User) (d : EnrichedData) :
  user (home w) = Some u ->
  loading (home w) = false ->
  fetching w = [] ->
  let h := home w in
  let h' := mkHome None (state h) (country h) (Some d) true false None None in
  exec w [Submit; ClickLogout; SignOutResolved; FetchResolved d]
  = Some (mkWorld h' (signingIn w) (signingOut w) []) /\
  dataPanel h' = Some d.
Proof.
  intros Huser Hidle Hnone. cbv zeta.
  destruct w as [h si so fe]. cbn [home signingIn signingOut fetching] in *. subst fe.
  split; [ | reflexivity ].
  cbn [exec step home signingIn signingOut fetching].
  rewrite Huser, Hidle. cbn. rewrite Huser. reflexivity.
Qed.

(** X19 in the sample session. *)
Lemma v1_response_after_logout_sample :
  exists w h',
    exec start Samples.v1_to_form = Some w /\
    exec w [Submit; ClickLogout; SignOutResolved; FetchResolved Samples.punjab_data]
    = Some (mkWorld h' 0 0 []) /\
    user h' = None /\
    dataPanel h' = Some Samples.punjab_data.
Proof.
  eexists. eexists. split; [ vm_compute; reflexivity | ].
  split.
  - refine (proj1 (v1_response_after_logout _ Samples.somebody Samples.punjab_data
                                              _ _ _)); reflexivity.
  - split; reflexivity.
Defined.

End PageTsxFacts.
